(** * gogdb: the index database updater ([gogdb/updater/indexdb.py])

    A shallow embedding of the rebuild pipeline of the index store:
    the schema initialisation [init_db], the row mappers [index_product]
    and [index_changelog], and the three-phase coordinator
    [IndexDbProcessor] ([prepare], [process], [finish]).

    The Python code talks to SQLite through a cursor and to the file
    system through [pathlib] and [os]; both are modelled by an explicit
    [world] that is threaded through a small state-and-exception monad
    [py].  Every call that reaches the outside (an awaited cursor call, a
    file-system call) is a point at which the environment may make the run
    stop with an exception; the environment's decisions are the [fates]
    component of the world. *)

From Stdlib Require Import ZArith List Floats.SpecFloat.
From stdpp Require Import base gmap sets list strings sorting.

Local Open Scope Z_scope.
#[local] Set Warnings "-clear-no-such-hyp".
#[local] Set Default Proof Using "Type".

(** ** Python values that reach the store *)

(** A [datetime] is used by the code in two ways only: as a dictionary key
    (equality and hashing) and through [datetime.timestamp()].  It is
    modelled by its ordinal in microseconds. *)
Definition datetime : Type := Z.

(** What [sqlite3] binds for [None], [int], [str] and [float]. *)
Inductive sqlval : Type :=
| NULL
| INTEGER (z : Z)
| TEXT (s : string)
| REAL (f : spec_float).

Definition text_or_null (o : option string) : sqlval :=
  match o with
  | Some s => TEXT s
  | None => NULL
  end.

(** ** Exceptions and results *)

Inductive exn : Type :=
| AttributeError
| TypeError
| OperationalError (msg : string)
| ProgrammingError (msg : string)
| ValueError (msg : string)
| FileNotFoundError
| OSError
| CancelledError.

Inductive result (A : Type) : Type :=
| Ok (a : A)
| Err (e : exn).
Arguments Ok {A} a.
Arguments Err {A} e.

(** ** The SQLite store *)

Record table : Type := Table {
  columns : list (string * string);
  rows : list (list sqlval)
}.

Record database : Type := Database {
  tables : gmap string table;
  indexes : gmap string (string * string)
}.

Definition empty_database : database := Database ∅ ∅.

(** The statements the updater sends; the SQL text of the source is kept in
    the constructor names. *)
Inductive statement : Type :=
| CREATE_TABLE (name : string) (cols : list (string * string))
| CREATE_INDEX (name tbl col : string)
| BEGIN_TRANSACTION
| END_TRANSACTION
| DELETE_FROM (tbl : string)
| INSERT_INTO (tbl : string) (params : list sqlval)
| SELECT_COUNT (tbl : string).

Record connection : Type := Connection {
  db_path : string * string;
  working : database;
  in_transaction : bool
}.

Definition set_working (d : database) (c : connection) : connection :=
  Connection (db_path c) d (in_transaction c).

Definition set_in_transaction (b : bool) (c : connection) : connection :=
  Connection (db_path c) (working c) b.

Definition table_rows (t : string) (d : database) : list (list sqlval) :=
  match tables d !! t with
  | Some tb => rows tb
  | None => []
  end.

Definition append_rows (t : string) (rs : list (list sqlval)) (d : database)
  : database :=
  Database (alter (λ tb, Table (columns tb) (rows tb ++ rs)) t (tables d))
           (indexes d).

Definition clear_rows (t : string) (d : database) : database :=
  Database (alter (λ tb, Table (columns tb) []) t (tables d)) (indexes d).

Definition name_taken (n : string) (d : database) : bool :=
  bool_decide (is_Some (tables d !! n)) || bool_decide (is_Some (indexes d !! n)).

(** One statement on a connection: the new state of the connection and the
    rows the cursor can fetch afterwards, or SQLite's error. *)
Definition sql_exec (s : statement) (c : connection)
  : result (connection * list (list sqlval)) :=
  let d := working c in
  match s with
  | CREATE_TABLE n cols =>
      if name_taken n d then Err (OperationalError "already exists")
      else Ok (set_working (Database (<[n := Table cols []]> (tables d)) (indexes d)) c, [])
  | CREATE_INDEX n t col =>
      if name_taken n d then Err (OperationalError "already exists")
      else match tables d !! t with
           | None => Err (OperationalError "no such table")
           | Some tb =>
               if bool_decide (col ∈ (columns tb).*1)
               then Ok (set_working (Database (tables d) (<[n := (t, col)]> (indexes d))) c, [])
               else Err (OperationalError "no such column")
           end
  | BEGIN_TRANSACTION =>
      if in_transaction c
      then Err (OperationalError "cannot start a transaction within a transaction")
      else Ok (set_in_transaction true c, [])
  | END_TRANSACTION =>
      if in_transaction c
      then Ok (set_in_transaction false c, [])
      else Err (OperationalError "cannot commit - no transaction is active")
  | DELETE_FROM t =>
      match tables d !! t with
      | None => Err (OperationalError "no such table")
      | Some _ => Ok (set_working (clear_rows t d) c, [])
      end
  | INSERT_INTO t params =>
      match tables d !! t with
      | None => Err (OperationalError "no such table")
      | Some tb =>
          if bool_decide (length params = length (columns tb))
          then Ok (set_working (append_rows t [params] d) c, [])
          else Err (OperationalError "wrong number of values supplied")
      end
  | SELECT_COUNT t =>
      match tables d !! t with
      | None => Err (OperationalError "no such table")
      | Some tb => Ok (c, [[INTEGER (Z.of_nat (length (rows tb)))]])
      end
  end.

(** ** The world: files, the processor's handles, the environment *)

(** A [pathlib] path, as its parent directory and its final component.
    [Path.with_name] refuses a path whose name is empty; the path of the
    index has a name. *)
Definition path : Type := string * string.
Definition parent (p : path) : string := p.1.
Definition name (p : path) : string := p.2.
Definition with_name (p : path) (n : string) : path := (parent p, n).

Record cursor : Type := Cursor {
  closed : bool;
  pending : list (list sqlval)
}.

Inductive fate : Type :=
| Proceed
| Abort (e : exn).

Record world : Type := World {
  files : gmap (string * string) database;
  dirs : gset string;
  self_conn : option connection;
  self_cur : option cursor;
  stdout : list (list sqlval);
  hash_order : gset string → list string;
  fates : list fate
}.

Definition set_files (f : gmap (string * string) database) (w : world) : world :=
  World f (dirs w) (self_conn w) (self_cur w) (stdout w) (hash_order w) (fates w).
Definition set_dirs (d : gset string) (w : world) : world :=
  World (files w) d (self_conn w) (self_cur w) (stdout w) (hash_order w) (fates w).
Definition set_conn (c : option connection) (w : world) : world :=
  World (files w) (dirs w) c (self_cur w) (stdout w) (hash_order w) (fates w).
Definition set_cur (c : option cursor) (w : world) : world :=
  World (files w) (dirs w) (self_conn w) c (stdout w) (hash_order w) (fates w).
Definition set_stdout (o : list (list sqlval)) (w : world) : world :=
  World (files w) (dirs w) (self_conn w) (self_cur w) o (hash_order w) (fates w).
Definition set_fates (f : list fate) (w : world) : world :=
  World (files w) (dirs w) (self_conn w) (self_cur w) (stdout w) (hash_order w) f.

(** ** The monad of the embedded Python code *)

Inductive outcome (A : Type) : Type :=
| Returned (a : A) (w : world)
| Raised (e : exn) (w : world).
Arguments Returned {A} a w.
Arguments Raised {A} e w.

Definition final_world {A} (o : outcome A) : world :=
  match o with
  | Returned _ w => w
  | Raised _ w => w
  end.

Definition py (A : Type) : Type := world → outcome A.

Definition run {A} (m : py A) (w : world) : outcome A := m w.

Definition py_ret {A} (a : A) : py A := λ w, Returned a w.

Definition py_bind {A B} (k : A → py B) (m : py A) : py B :=
  λ w, match m w with
       | Returned a w' => k a w'
       | Raised e w' => Raised e w'
       end.

#[global] Instance py_mret : MRet py := @py_ret.
#[global] Instance py_mbind : MBind py := @py_bind.

Definition raise {A} (e : exn) : py A := λ w, Raised e w.

Definition lift {A} (r : result A) : py A :=
  match r with
  | Ok a => mret a
  | Err e => raise e
  end.

(** A call that reaches the outside: the environment lets it proceed or
    makes it raise, in which case the call has no effect (an interruption
    that arrives once a call has had its effect is one that precedes the
    next call).  Nothing in the source catches an exception, so that a
    raised exception ends the run.  A statement that SQLite fails on a
    storage fault may also roll the open transaction back: that changes the
    committed content of no file, and what the handles of the processor are
    like after an exception is relied upon by no property. *)
Definition io {A} (act : world → outcome A) : py A :=
  λ w, match fates w with
       | [] => act w
       | Proceed :: rest => act (set_fates rest w)
       | Abort e :: rest => Raised e (set_fates rest w)
       end.

Definition py_gets {A} (f : world → A) : py A := λ w, Returned (f w) w.

(** ** The calls of the source that reach the outside *)

(** [Path.mkdir(exist_ok=True)]: nothing changes when the directory
    exists.  Directories are a flat set of names: that an ancestor is
    missing, or that a regular file is in the way, is not decided here but
    left to the environment (see [io]). *)
Definition path_mkdir (d : string) : py unit :=
  io (λ w, Returned () (set_dirs ({[d]} ∪ dirs w) w)).

(** [Path.unlink(missing_ok=True)] *)
Definition path_unlink (p : path) : py unit :=
  io (λ w, Returned () (set_files (delete p (files w)) w)).

(** [self.conn = await aiosqlite.connect(p, isolation_level=None)]: the
    file is created empty when it does not exist. *)
Definition aiosqlite_connect (p : path) : py unit :=
  io (λ w,
    let d := default empty_database (files w !! p) in
    Returned () (set_conn (Some (Connection p d false))
                          (set_files (<[p := d]> (files w)) w))).

(** [self.cur = await self.conn.cursor()] *)
Definition conn_cursor : py unit :=
  λ w, match self_conn w with
       | None => Raised AttributeError w
       | Some _ => io (λ w, Returned () (set_cur (Some (Cursor false [])) w)) w
       end.

(** Outside a transaction (the connection is opened with
    [isolation_level=None]) the effect of a statement is in the file at once;
    inside one it stays with the connection until the transaction ends. *)
Definition store (c : connection) (w : world) : world :=
  if in_transaction c then w
  else set_files (<[db_path c := working c]> (files w)) w.

(** [await cur.execute(s)]: [aiosqlite] hands the call to its connection,
    which refuses it once closed; on an open connection [sqlite3] refuses a
    closed cursor. *)
Definition cur_execute (s : statement) : py unit :=
  λ w, match self_cur w with
       | None => Raised AttributeError w
       | Some cu =>
           io (λ w,
             match self_conn w with
             | None => Raised (ValueError "Connection closed") w
             | Some c =>
                 if closed cu
                 then Raised (ProgrammingError "Cannot operate on a closed cursor.") w
                 else match sql_exec s c with
                      | Err e => Raised e w
                      | Ok (c', fetched) =>
                          Returned () (store c' (set_cur (Some (Cursor false fetched))
                                                  (set_conn (Some c') w)))
                      end
             end) w
       end.

(** [await cur.fetchone()] *)
Definition cur_fetchone : py (option (list sqlval)) :=
  λ w, match self_cur w with
       | None => Raised AttributeError w
       | Some cu =>
           io (λ w,
             match self_conn w with
             | None => Raised (ValueError "Connection closed") w
             | Some _ =>
                 match pending cu with
                 | [] => Returned None w
                 | r :: rest =>
                     Returned (Some r) (set_cur (Some (Cursor (closed cu) rest)) w)
                 end
             end) w
       end.

(** [row[0]] *)
Definition getitem0 (r : option (list sqlval)) : py sqlval :=
  match r with
  | Some (v :: _) => mret v
  | _ => raise TypeError
  end.

(** [await self.cur.close()] *)
Definition cur_close : py unit :=
  λ w, match self_cur w with
       | None => Raised AttributeError w
       | Some cu =>
           io (λ w,
             match self_conn w with
             | None => Raised (ValueError "Connection closed") w
             | Some _ => Returned () (set_cur (Some (Cursor true [])) w)
             end) w
       end.

(** [await self.conn.commit()] *)
Definition conn_commit : py unit :=
  λ w, match self_conn w with
       | None => Raised AttributeError w
       | Some c =>
           io (λ w, let c' := set_in_transaction false c in
                    Returned () (store c' (set_conn (Some c') w))) w
       end.

(** [await self.conn.close()] *)
Definition conn_close : py unit :=
  λ w, match self_conn w with
       | None => Raised AttributeError w
       | Some c => io (λ w, Returned () (set_conn None w)) w
       end.

(** [os.replace(src, dst)] *)
Definition os_replace (src dst : path) : py unit :=
  io (λ w, match files w !! src with
           | None => Raised FileNotFoundError w
           | Some f => Returned () (set_files (<[dst := f]> (delete src (files w))) w)
           end).

(** [print(fmt.format(args))]; the arguments are kept unformatted. *)
Definition print (args : list sqlval) : py unit :=
  io (λ w, Returned () (set_stdout (stdout w ++ [args]) w)).

(** ** The records of [gogdb.core.model] *)

Module Product.
(** Modelled from the spec: the declaration of the product record of
    [gogdb.core.model] is not part of the sources; the fields are those
    [index_product] reads. *)
Record t : Type := mk {
  id : Z;
  title : string;
  image_logo : string;
  type : string;
  comp_systems : gset string;
  rank_bestselling : option Z
}.
End Product.

Module BonusContent.
(** Modelled from the spec: the declaration of the bonus descriptor of
    [gogdb.core.model] is not part of the sources; it carries a bonus-type
    tag. *)
Record t : Type := mk { bonus_type : string }.
End BonusContent.

Module DownloadRecord.
(** Modelled from the spec: the declaration of the download payload of
    [gogdb.core.model] is not part of the sources; it carries a
    download-type tag and up to two optional bonus descriptors. *)
Record t : Type := mk {
  dl_type : string;
  dl_new_bonus : option BonusContent.t;
  dl_old_bonus : option BonusContent.t
}.
End DownloadRecord.

Module PropertyRecord.
(** Modelled from the spec: the declaration of the property payload of
    [gogdb.core.model] is not part of the sources; it carries a property
    name. *)
Record t : Type := mk { property_name : string }.
End PropertyRecord.

Module ChangeRecord.
(** Modelled from the spec: the declaration of the change record of
    [gogdb.core.model] is not part of the sources; the fields are those
    [index_changelog] reads.  A payload that a record does not carry is
    [None]. *)
Record t : Type := mk {
  timestamp : datetime;
  action : string;
  category : string;
  download_record : option DownloadRecord.t;
  property_record : option PropertyRecord.t
}.
End ChangeRecord.

Module IndexChange.
(** Modelled from the spec: the declaration of [model.IndexChange] is not
    part of the sources; the fields the constructor call does not give
    ([dl_type], [bonus_type], [property_name]) start as [None]. *)
Record t : Type := mk {
  id : Z;
  title : string;
  timestamp : datetime;
  action : string;
  category : string;
  dl_type : option string;
  bonus_type : option string;
  property_name : option string;
  record : ChangeRecord.t
}.
Definition set_dl_type (v : option string) (i : t) : t :=
  mk (id i) (title i) (timestamp i) (action i) (category i)
     v (bonus_type i) (property_name i) (record i).
Definition set_bonus_type (v : option string) (i : t) : t :=
  mk (id i) (title i) (timestamp i) (action i) (category i)
     (dl_type i) v (property_name i) (record i).
Definition set_property_name (v : option string) (i : t) : t :=
  mk (id i) (title i) (timestamp i) (action i) (category i)
     (dl_type i) (bonus_type i) v (record i).
End IndexChange.

(** The data bundle the driver hands to [process]. *)
Record Bundle : Type := mkBundle {
  product : option Product.t;
  changelog : option (list ChangeRecord.t)
}.

(** [obj.attr] where [obj] may be [None] *)
Definition getattr {A} (o : option A) : result A :=
  match o with
  | Some a => Ok a
  | None => Err AttributeError
  end.

(** ** [collections.defaultdict(set)], [sorted] and [str.join] *)

(** The dictionary keeps its keys in insertion order. *)
Fixpoint defaultdict_add (k : datetime) (c : string)
    (m : list (datetime * gset string)) : list (datetime * gset string) :=
  match m with
  | [] => [(k, {[c]})]
  | (k', s) :: m' =>
      if decide (k' = k) then (k', {[c]} ∪ s) :: m'
      else (k', s) :: defaultdict_add k c m'
  end.

(** The set a key maps to, empty for a key the dictionary does not hold. *)
Fixpoint defaultdict_get (k : datetime) (m : list (datetime * gset string))
  : gset string :=
  match m with
  | [] => ∅
  | (k', s) :: m' => if decide (k' = k) then s else defaultdict_get k m'
  end.

(** [sorted] on strings: the order of [str] is that of the code points. *)
Definition sorted (l : list string) : list string := merge_sort String.le l.

Definition join (sep : string) (l : list string) : string := String.concat sep l.

(** ** [init_db] and [count_rows] *)

Definition products_columns : list (string * string) :=
  [("product_id", "INTEGER"); ("title", "TEXT"); ("image_logo", "TEXT");
   ("product_type", "TEXT"); ("comp_systems", "TEXT");
   ("sale_rank", "INTEGER"); ("search_title", "TEXT")]%string.

Definition changelog_columns : list (string * string) :=
  [("product_id", "INTEGER"); ("product_title", "TEXT"); ("timestamp", "REAL");
   ("action", "TEXT"); ("category", "TEXT"); ("dl_type", "TEXT");
   ("bonus_type", "TEXT"); ("property_name", "TEXT");
   ("serialized_record", "TEXT")]%string.

Definition changelog_summary_columns : list (string * string) :=
  [("product_id", "INTEGER"); ("product_title", "TEXT"); ("timestamp", "REAL");
   ("categories", "TEXT")]%string.

Definition init_db : py unit :=
  cur_execute (CREATE_TABLE "products" products_columns);;
  cur_execute (CREATE_TABLE "changelog" changelog_columns);;
  cur_execute (CREATE_TABLE "changelog_summary" changelog_summary_columns);;
  cur_execute (CREATE_INDEX "idx_products_sale_rank" "products" "sale_rank");;
  cur_execute (CREATE_INDEX "idx_changelog_timestamp" "changelog" "timestamp");;
  cur_execute (CREATE_INDEX "idx_summary_timestamp" "changelog_summary" "timestamp").

(** The name is put into the text of the statement as it is; the source
    calls [count_rows] with the names of the three tables. *)
Definition count_rows (table_name : string) : py sqlval :=
  cur_execute (SELECT_COUNT table_name);;
  r ← cur_fetchone;
  getitem0 r.

(** The schema [init_db] leaves in an empty store. *)
Definition indexdb_schema : database :=
  Database
    (<["changelog_summary" := Table changelog_summary_columns []]>
       (<["changelog" := Table changelog_columns []]>
          (<["products" := Table products_columns []]> ∅)))
    (<["idx_summary_timestamp" := ("changelog_summary", "timestamp")]>
       (<["idx_changelog_timestamp" := ("changelog", "timestamp")]>
          (<["idx_products_sale_rank" := ("products", "sale_rank")]> ∅)))%string.

(** ** Sample data *)

Module Sample.

Definition normalize_search (s : string) : string := "n:" +:+ s.

Definition compress_systems (s : gset string) : string :=
  join "," (sorted (elements s)).

Definition json_dumps (r : ChangeRecord.t) : string :=
  ChangeRecord.action r +:+ ":" +:+ ChangeRecord.category r.

Definition posix_timestamp (d : datetime) : spec_float :=
  if d =? 0 then S754_zero false
  else S754_finite (d <? 0) (Z.to_pos (Z.abs d)) 0.

Definition live : path := ("/var/lib/gogdb", "index.sqlite3")%string.

Definition part : path := ("/var/lib/gogdb", "index.sqlite3.part")%string.

Definition foo_bar : Product.t :=
  Product.mk 1207658924 "Foo Bar" "//images/foo_bar" "game"
    {["windows"; "linux"]} None.

Definition ranked : Product.t :=
  Product.mk 1207658925 "Baz" "//images/baz" "pack" {["osx"]} (Some 7).

Definition property_change : ChangeRecord.t :=
  ChangeRecord.mk 1600000000000000 "change" "property" None
    (Some (PropertyRecord.mk "title")).

Definition download_change : ChangeRecord.t :=
  ChangeRecord.mk 1600000000000000 "add" "download"
    (Some (DownloadRecord.mk "bonus"
             (Some (BonusContent.mk "wallpapers"))
             (Some (BonusContent.mk "manuals"))))
    None.

Definition build_change : ChangeRecord.t :=
  ChangeRecord.mk 1600000360000000 "add" "build" None None.

Definition changes : list ChangeRecord.t :=
  [property_change; download_change; build_change].

Definition bundles : list Bundle :=
  [mkBundle (Some foo_bar) (Some changes);
   mkBundle None None;
   mkBundle (Some ranked) None].

(** A store published by an earlier rebuild. *)
Definition published : database :=
  append_rows "products"
    [[INTEGER 1; TEXT "Old"; TEXT "//images/old"; TEXT "game"; TEXT "";
      INTEGER 3; TEXT "n:Old"]]
    indexdb_schema.

(** Before a rebuild: the published store, and a staging file left by an
    attempt that did not finish. *)
Definition idle : world :=
  World (<[part := empty_database]> {[live := published]}) ∅ None None []
        elements [].

(** The same as [idle], the directory of the index being there. *)
Definition installed : world :=
  World (<[part := empty_database]> {[live := published]})
        {["/var/lib/gogdb"]} None None [] elements [].

(** The same, in a process whose sets iterate the other way round and
    with no file yet. *)
Definition idle_reversed : world :=
  World ∅ ∅ None None [] (λ s, reverse (elements s)) [].

(** The same as [idle], with an environment that interrupts the
    twentieth call that reaches the outside. *)
Definition interrupted : world :=
  World (<[part := empty_database]> {[live := published]}) ∅ None None []
        elements (replicate 19 Proceed ++ [Abort CancelledError]).

(** A connection freshly opened on the staging path. *)
Definition opened : world :=
  World {[part := empty_database]} ∅
        (Some (Connection part empty_database false))
        (Some (Cursor false [])) [] elements [].

(** Between [prepare] and [finish]. *)
Definition prepared : world :=
  World {[part := indexdb_schema]} ∅
        (Some (Connection part indexdb_schema true))
        (Some (Cursor false [])) [] elements [].

Definition prepared_reversed : world :=
  World {[part := indexdb_schema]} ∅
        (Some (Connection part indexdb_schema true))
        (Some (Cursor false [])) [] (λ s, reverse (elements s)) [].

End Sample.

Section IndexDb.

(** The collaborators of the updater, which the sources import:
    [gogdb.core.normalization.normalize_search] and [compress_systems],
    [json.dumps(record, sort_keys=True, ensure_ascii=False,
    default=storage.json_encoder)], and [datetime.timestamp()]. *)
Variable normalize_search : string → string.
Variable compress_systems : gset string → string.
Variable json_dumps : ChangeRecord.t → string.
Variable posix_timestamp : datetime → spec_float.

(** ** [index_product] *)

(** Lines 53 to 67: the rank with its default, and the tuple bound to the
    [INSERT INTO products]. *)
Definition product_values (prod : Product.t) : list sqlval :=
  let sale_rank :=
    match Product.rank_bestselling prod with
    | Some r => r
    | None => 100000
    end in
  [INTEGER (Product.id prod);
   TEXT (Product.title prod);
   TEXT (Product.image_logo prod);
   TEXT (Product.type prod);
   TEXT (compress_systems (Product.comp_systems prod));
   INTEGER sale_rank;
   TEXT (normalize_search (Product.title prod))].

Definition index_product (prod : Product.t) : py unit :=
  cur_execute (INSERT_INTO "products" (product_values prod)).

(** ** [index_changelog] *)

(** Lines 73 to 89: the [IndexChange] built for one change record. *)
Definition idx_change_of (prod : Product.t) (changerec : ChangeRecord.t)
  : result IndexChange.t :=
  let idx_change :=
    IndexChange.mk (Product.id prod) (Product.title prod)
      (ChangeRecord.timestamp changerec) (ChangeRecord.action changerec)
      (ChangeRecord.category changerec) None None None changerec in
  if String.eqb (ChangeRecord.category changerec) "download" then
    match getattr (ChangeRecord.download_record changerec) with
    | Err e => Err e
    | Ok download_record =>
        let idx_change :=
          IndexChange.set_dl_type
            (Some (DownloadRecord.dl_type download_record)) idx_change in
        let idx_change :=
          match DownloadRecord.dl_new_bonus download_record with
          | Some b =>
              IndexChange.set_bonus_type (Some (BonusContent.bonus_type b)) idx_change
          | None => idx_change
          end in
        let idx_change :=
          match DownloadRecord.dl_old_bonus download_record with
          | Some b =>
              IndexChange.set_bonus_type (Some (BonusContent.bonus_type b)) idx_change
          | None => idx_change
          end in
        Ok idx_change
    end
  else if String.eqb (ChangeRecord.category changerec) "property" then
    match getattr (ChangeRecord.property_record changerec) with
    | Err e => Err e
    | Ok property_record =>
        Ok (IndexChange.set_property_name
              (Some (PropertyRecord.property_name property_record)) idx_change)
    end
  else Ok idx_change.

(** Lines 93 to 105: the tuple bound to the [INSERT INTO changelog]. *)
Definition changelog_values (idx_change : IndexChange.t) : list sqlval :=
  [INTEGER (IndexChange.id idx_change);
   TEXT (IndexChange.title idx_change);
   REAL (posix_timestamp (IndexChange.timestamp idx_change));
   TEXT (IndexChange.action idx_change);
   TEXT (IndexChange.category idx_change);
   text_or_null (IndexChange.dl_type idx_change);
   text_or_null (IndexChange.bonus_type idx_change);
   text_or_null (IndexChange.property_name idx_change);
   TEXT (json_dumps (IndexChange.record idx_change))].

(** Lines 72 to 108: the loop over the change records. *)
Fixpoint index_changelog_records (prod : Product.t)
    (changelog : list ChangeRecord.t) (summaries : list (datetime * gset string))
  : py (list (datetime * gset string)) :=
  match changelog with
  | [] => mret summaries
  | changerec :: rest =>
      idx_change ← lift (idx_change_of prod changerec);
      cur_execute (INSERT_INTO "changelog" (changelog_values idx_change));;
      index_changelog_records prod rest
        (defaultdict_add (ChangeRecord.timestamp changerec)
                         (ChangeRecord.category changerec) summaries)
  end.

(** Lines 111 to 119: the tuple bound to the [INSERT INTO changelog_summary];
    [order] is the order in which the interpreter iterates over a set. *)
Definition summary_values (prod : Product.t) (order : gset string → list string)
    (item : datetime * gset string) : list sqlval :=
  let '(timestamp, category_set) := item in
  let category_str := join "," (sorted (order category_set)) in
  [INTEGER (Product.id prod);
   TEXT (Product.title prod);
   REAL (posix_timestamp timestamp);
   TEXT category_str].

(** Lines 110 to 120: the loop over [summaries.items()]. *)
Fixpoint index_changelog_summaries (prod : Product.t)
    (items : list (datetime * gset string)) : py unit :=
  match items with
  | [] => mret ()
  | item :: rest =>
      order ← py_gets hash_order;
      cur_execute (INSERT_INTO "changelog_summary" (summary_values prod order item));;
      index_changelog_summaries prod rest
  end.

Definition index_changelog (prod : Product.t) (changelog : list ChangeRecord.t)
  : py unit :=
  summaries ← index_changelog_records prod changelog [];
  index_changelog_summaries prod summaries.

(** ** [IndexDbProcessor] *)

(** The fields of the processor that never change after [__init__]; the
    handles [self.conn] and [self.cur] are in the world. *)
Record IndexDbProcessor : Type := mkIndexDbProcessor {
  indexdb_path : path;
  indexdb_path_part : path
}.

(** [__init__]; the path is what [db.path_indexdb()] returns. *)
Definition init (path_indexdb : path) : py IndexDbProcessor :=
  λ w, Returned
         (mkIndexDbProcessor path_indexdb
            (with_name path_indexdb (name path_indexdb +:+ ".part")))
         (set_cur None (set_conn None w)).

Definition prepare (self : IndexDbProcessor) : py unit :=
  path_mkdir (parent (indexdb_path self));;
  path_unlink (indexdb_path_part self);;
  aiosqlite_connect (indexdb_path_part self);;
  conn_cursor;;
  init_db;;
  cur_execute BEGIN_TRANSACTION;;
  cur_execute (DELETE_FROM "products");;
  cur_execute (DELETE_FROM "changelog");;
  cur_execute (DELETE_FROM "changelog_summary").

Definition process (self : IndexDbProcessor) (data : Bundle) : py unit :=
  match product data with
  | None => mret ()
  | Some prod =>
      index_product prod;;
      match changelog data with
      | None => mret ()
      | Some cl => index_changelog prod cl
      end
  end.

Definition finish (self : IndexDbProcessor) : py unit :=
  cur_execute END_TRANSACTION;;
  n_products ← count_rows "products";
  n_changelog ← count_rows "changelog";
  n_summaries ← count_rows "changelog_summary";
  print [n_products; n_changelog; n_summaries];;
  cur_close;;
  conn_commit;;
  conn_close;;
  os_replace (indexdb_path_part self) (indexdb_path self).

(** Modelled from the spec: the driver that feeds the processor is not part
    of the sources; it calls [process] once per bundle, in the order
    received. *)
Fixpoint process_all (self : IndexDbProcessor) (bundles : list Bundle) : py unit :=
  match bundles with
  | [] => mret ()
  | data :: rest => process self data;; process_all self rest
  end.

(** Modelled from the spec: the three-phase lifecycle of the driver, which
    is not part of the sources: [prepare] once, [process] for each bundle,
    [finish] once. *)
Definition rebuild (path_indexdb : path) (bundles : list Bundle) : py unit :=
  self ← init path_indexdb;
  prepare self;;
  process_all self bundles;;
  finish self.


(** ** What the theorems speak about *)

(** The value a row holds in the column called [n]. *)
Fixpoint field (cols : list (string * string)) (n : string) (row : list sqlval)
  : option sqlval :=
  match cols, row with
  | (c, _) :: cols', v :: row' =>
      if String.eqb c n then Some v else field cols' n row'
  | _, _ => None
  end.

(** The database the processor's connection works on. *)
Definition session_db (w : world) : database :=
  match self_conn w with
  | Some c => working c
  | None => empty_database
  end.

(** The processor holds the connection [c] and an open cursor, the
    environment interferes no more, and outside a transaction the file of
    the connection holds what the connection sees. *)
Definition session (w : world) (c : connection) : Prop :=
  fates w = [] ∧ self_conn w = Some c ∧
  (∃ p, self_cur w = Some (Cursor false p)) ∧
  (in_transaction c = false → files w !! db_path c = Some (working c)).

Definition has_columns (t : string) (cols : list (string * string))
    (d : database) : Prop :=
  ∃ tb, tables d !! t = Some tb ∧ columns tb = cols.

Definition has_schema (d : database) : Prop :=
  has_columns "products" products_columns d ∧
  has_columns "changelog" changelog_columns d ∧
  has_columns "changelog_summary" changelog_summary_columns d.

(** The state between [prepare] and [finish], free of faults. *)
Definition accepting (w : world) : Prop :=
  ∃ c, session w c ∧ has_schema (working c).

(** Iterating over a set visits each element once, in an order that
    depends on the hash seed of the process. *)
Definition set_order_valid (w : world) : Prop :=
  ∀ s : gset string, hash_order w s ≡ₚ elements s.

(** What a step through a connection at [p] leaves alone. *)
Definition frame (p : path) (w w' : world) : Prop :=
  hash_order w' = hash_order w ∧
  ∀ q, q ≠ p → files w' !! q = files w !! q.

(** A change record carries the payload of its category. *)
Definition carries_payload (r : ChangeRecord.t) : bool :=
  if String.eqb (ChangeRecord.category r) "download"
  then bool_decide (is_Some (ChangeRecord.download_record r))
  else if String.eqb (ChangeRecord.category r) "property"
  then bool_decide (is_Some (ChangeRecord.property_record r))
  else true.

Definition bundle_well_formed (b : Bundle) : bool :=
  match changelog b with
  | Some cl => forallb carries_payload cl
  | None => true
  end.

(** The [IndexChange]s of a whole changelog, when each record has one. *)
Fixpoint idx_changes_of (prod : Product.t) (cl : list ChangeRecord.t)
  : result (list IndexChange.t) :=
  match cl with
  | [] => Ok []
  | r :: rest =>
      match idx_change_of prod r, idx_changes_of prod rest with
      | Ok i, Ok rest' => Ok (i :: rest')
      | Err e, _ => Err e
      | _, Err e => Err e
      end
  end.

(** The dictionary [summaries] after the loop over the records. *)
Definition summaries_of (cl : list ChangeRecord.t) : list (datetime * gset string) :=
  foldl (λ m r, defaultdict_add (ChangeRecord.timestamp r) (ChangeRecord.category r) m)
        [] cl.

(** The category tags of the records that bear the timestamp [ts]. *)
Definition categories_at (ts : datetime) (cl : list ChangeRecord.t) : list string :=
  ChangeRecord.category <$> filter (λ r, ChangeRecord.timestamp r = ts) cl.

(** The summary rows as the specification words them: one row per distinct
    timestamp, with the sorted, deduplicated, comma-joined category tags. *)
Definition summary_rows_spec (prod : Product.t) (cl : list ChangeRecord.t)
  : list (list sqlval) :=
  (λ ts, [INTEGER (Product.id prod);
          TEXT (Product.title prod);
          REAL (posix_timestamp ts);
          TEXT (join "," (sorted (remove_dups (categories_at ts cl))))])
  <$> remove_dups (ChangeRecord.timestamp <$> cl).

(** The bonus type the specification gives a download record. *)
Definition bonus_type_spec (dr : DownloadRecord.t) : option string :=
  match DownloadRecord.dl_old_bonus dr, DownloadRecord.dl_new_bonus dr with
  | Some old, _ => Some (BonusContent.bonus_type old)
  | None, Some new => Some (BonusContent.bonus_type new)
  | None, None => None
  end.

(** The files other than [p] are as they were. *)
Definition untouched_except (p : path) (w w' : world) : Prop :=
  ∀ q, q ≠ p → files w' !! q = files w !! q.

(** Every connection the processor holds is on [p]. *)
Definition connected_to (p : path) (w : world) : Prop :=
  ∀ c, self_conn w = Some c → db_path c = p.

(** A piece of code that, from a processor connected to [p], writes to no
    file but [p] and stays connected to [p], however it ends. *)
Definition confined {A} (p : path) (m : py A) : Prop :=
  ∀ w, connected_to p w →
       connected_to p (final_world (run m w)) ∧
       untouched_except p w (final_world (run m w)).

(** The rows [index_changelog] binds for the records of a changelog. *)
Definition changelog_rows (prod : Product.t) (cl : list ChangeRecord.t)
  : list (list sqlval) :=
  match idx_changes_of prod cl with
  | Ok ics => changelog_values <$> ics
  | Err _ => []
  end.

(** What [process] makes of the database for one bundle, and for a
    sequence of bundles, when no call fails. *)
Definition bundle_db (order : gset string → list string) (b : Bundle)
    (d : database) : database :=
  match product b with
  | None => d
  | Some prod =>
      let d1 := append_rows "products" [product_values prod] d in
      match changelog b with
      | None => d1
      | Some cl =>
          append_rows "changelog_summary"
            (summary_values prod order <$> summaries_of cl)
            (append_rows "changelog" (changelog_rows prod cl) d1)
      end
  end.

Definition bundles_db (order : gset string → list string) (bundles : list Bundle)
    (d : database) : database :=
  foldl (λ d b, bundle_db order b d) d bundles.

(** A piece of code that, when it raises from a processor connected to
    [p], has written to no file but [p]. *)
Definition guarded {A} (p : path) (m : py A) : Prop :=
  ∀ w, connected_to p w →
       ∀ e w', run m w = Raised e w' → untouched_except p w w'.

(** ** What the further properties speak about *)

(** Every connection the processor holds is inside a transaction. *)
Definition in_open_transaction (w : world) : Prop :=
  ∀ c, self_conn w = Some c → in_transaction c = true.

(** A piece of code that, run inside a transaction, stays inside it and
    changes no file, however it ends. *)
Definition buffered {A} (m : py A) : Prop :=
  ∀ w, in_open_transaction w →
       in_open_transaction (final_world (run m w)) ∧
       files (final_world (run m w)) = files w.

(** A piece of code that leaves a component of the world as it is,
    however it ends. *)
Definition preserves {A B} (f : world → B) (m : py A) : Prop :=
  ∀ w, f (final_world (run m w)) = f w.

(** The elements of [l] that are not in [seen], each at its first
    occurrence. *)
Fixpoint first_occurrences (seen l : list datetime) : list datetime :=
  match l with
  | [] => []
  | x :: l' =>
      if decide (x ∈ seen) then first_occurrences seen l'
      else x :: first_occurrences (x :: seen) l'
  end.

(** The rows one bundle contributes to each table. *)
Definition bundle_product_rows (b : Bundle) : list (list sqlval) :=
  match product b with
  | Some prod => [product_values prod]
  | None => []
  end.

Definition bundle_changelog_rows (b : Bundle) : list (list sqlval) :=
  match product b, changelog b with
  | Some prod, Some cl => changelog_rows prod cl
  | _, _ => []
  end.

Definition bundle_summary_rows (order : gset string → list string) (b : Bundle)
  : list (list sqlval) :=
  match product b, changelog b with
  | Some prod, Some cl => summary_values prod order <$> summaries_of cl
  | _, _ => []
  end.

(** The line [finish] prints for a database. *)
Definition count_line (d : database) : list sqlval :=
  [INTEGER (Z.of_nat (length (table_rows "products" d)));
   INTEGER (Z.of_nat (length (table_rows "changelog" d)));
   INTEGER (Z.of_nat (length (table_rows "changelog_summary" d)))].

(** * Properties *)

(** The facts about lists, sets and tables do not depend on the
    collaborators. *)
Ltac pure_fact :=
  try clear normalize_search; try clear compress_systems;
  try clear json_dumps; try clear posix_timestamp.

(** ** Running the monad *)

Lemma run_bind {A B} (m : py A) (k : A → py B) w :
  run (m ≫= k) w =
  match run m w with
  | Returned a w' => run (k a) w'
  | Raised e w' => Raised e w'
  end.
Proof. reflexivity. Qed.

Lemma run_ret {A} (a : A) w : run (mret a) w = Returned a w.
Proof. reflexivity. Qed.

Lemma run_gets {A B} (f : world → A) (k : A → py B) w :
  run (py_gets f ≫= k) w = run (k (f w)) w.
Proof. reflexivity. Qed.

Lemma io_proceed {A} (act : world → outcome A) w :
  fates w = [] → io act w = act w.
Proof. intros Hf. unfold io. by rewrite Hf. Qed.

(** ** Statements on a session *)

Lemma sql_exec_path s c c' rs :
  sql_exec s c = Ok (c', rs) → db_path c' = db_path c.
Proof.
  destruct s; simpl; intros H; repeat case_match; by simplify_eq.
Qed.

Lemma store_fates c w : fates (store c w) = fates w.
Proof. unfold store. by destruct (in_transaction c). Qed.

Lemma store_conn c w : self_conn (store c w) = self_conn w.
Proof. unfold store. by destruct (in_transaction c). Qed.

Lemma store_cur c w : self_cur (store c w) = self_cur w.
Proof. unfold store. by destruct (in_transaction c). Qed.

Lemma store_hash_order c w : hash_order (store c w) = hash_order w.
Proof. unfold store. by destruct (in_transaction c). Qed.

Lemma store_files_ne c w q :
  q ≠ db_path c → files (store c w) !! q = files w !! q.
Proof.
  intros Hq. unfold store. destruct (in_transaction c); [done|].
  simpl. by rewrite lookup_insert_ne.
Qed.

Lemma store_files_eq c w :
  in_transaction c = false → files (store c w) !! db_path c = Some (working c).
Proof. intros Ht. unfold store. rewrite Ht. simpl. by rewrite lookup_insert_eq. Qed.

Lemma cur_execute_ok s c c' rs w :
  session w c → sql_exec s c = Ok (c', rs) →
  ∃ w', run (cur_execute s) w = Returned () w' ∧ session w' c' ∧
        frame (db_path c) w w' ∧ self_cur w' = Some (Cursor false rs).
Proof.
  intros (Hf & Hc & [p Hp] & Hfile) Hexec.
  eexists. unfold run, cur_execute. rewrite Hp, io_proceed by done.
  rewrite Hc. simpl. rewrite Hexec. split; [reflexivity|].
  pose proof (sql_exec_path _ _ _ _ Hexec) as Hpath.
  repeat split.
  - by rewrite store_fates.
  - by rewrite store_conn.
  - rewrite store_cur. by eexists.
  - intros Ht. by apply store_files_eq.
  - by rewrite store_hash_order.
  - intros q Hq. rewrite store_files_ne by congruence. done.
  - by rewrite store_cur.
Qed.

Lemma cur_execute_err s c e w :
  session w c → sql_exec s c = Err e → run (cur_execute s) w = Raised e w.
Proof.
  intros (Hf & Hc & [p Hp] & _) Hexec.
  unfold run, cur_execute. rewrite Hp, io_proceed by done.
  rewrite Hc. simpl. by rewrite Hexec.
Qed.

Lemma frame_refl p w : frame p w w.
Proof. by split. Qed.

Lemma frame_trans p w1 w2 w3 : frame p w1 w2 → frame p w2 w3 → frame p w1 w3.
Proof.
  intros [H1 H2] [H3 H4]. split; [congruence|].
  intros q Hq. rewrite H4, H2; done.
Qed.

Lemma session_db_eq w c : session w c → session_db w = working c.
Proof. intros (_ & Hc & _). unfold session_db. by rewrite Hc. Qed.

(** ** Rows of a table *)

Lemma append_rows_nil t d : append_rows t [] d = d.
Proof.
  destruct d as [tbs ixs]. unfold append_rows. simpl. f_equal.
  apply alter_id. intros [cols rs] _. simpl. by rewrite app_nil_r.
Qed.

Lemma append_rows_app t rs1 rs2 d :
  append_rows t rs2 (append_rows t rs1 d) = append_rows t (rs1 ++ rs2) d.
Proof.
  unfold append_rows. simpl. f_equal.
  rewrite alter_alter_eq. apply alter_ext.
  intros tb _. simpl. by rewrite app_assoc.
Qed.

Lemma table_rows_append_eq t rs d :
  is_Some (tables d !! t) →
  table_rows t (append_rows t rs d) = table_rows t d ++ rs.
Proof.
  intros [tb Htb]. unfold table_rows, append_rows. simpl.
  rewrite lookup_alter_eq, Htb. done.
Qed.

Lemma table_rows_append_ne t t' rs d :
  t ≠ t' → table_rows t' (append_rows t rs d) = table_rows t' d.
Proof.
  intros Hne. unfold table_rows, append_rows. simpl.
  by rewrite lookup_alter_ne.
Qed.

Lemma has_columns_append t t' cols rs d :
  has_columns t' cols d → has_columns t' cols (append_rows t rs d).
Proof.
  intros (tb & Htb & Hcols). unfold has_columns, append_rows. simpl.
  destruct (decide (t = t')) as [->|Hne].
  - rewrite lookup_alter_eq, Htb. simpl. by eexists.
  - rewrite lookup_alter_ne by done. by eexists.
Qed.

Lemma has_schema_append t rs d : has_schema d → has_schema (append_rows t rs d).
Proof. intros (H1 & H2 & H3). repeat split; by apply has_columns_append. Qed.

Lemma has_columns_is_Some t cols d : has_columns t cols d → is_Some (tables d !! t).
Proof. intros (tb & Htb & _). by eexists. Qed.

Lemma insert_ok t cols params c w :
  session w c → has_columns t cols (working c) → length params = length cols →
  ∃ w', run (cur_execute (INSERT_INTO t params)) w = Returned () w' ∧
        session w' (set_working (append_rows t [params] (working c)) c) ∧
        frame (db_path c) w w'.
Proof.
  intros Hs (tb & Htb & Hcols) Hlen.
  destruct (cur_execute_ok (INSERT_INTO t params) c
              (set_working (append_rows t [params] (working c)) c) [] w Hs)
    as (w' & Hrun & Hs' & Hfr & _).
  { simpl. rewrite Htb, Hcols. by rewrite bool_decide_eq_true_2. }
  by exists w'.
Qed.

Lemma set_working_working c : set_working (working c) c = c.
Proof. by destruct c. Qed.

Lemma set_working_twice d1 d2 c :
  set_working d2 (set_working d1 c) = set_working d2 c.
Proof. done. Qed.

(** ** The row mappers on a session *)

Lemma index_product_ok prod c w :
  session w c → has_schema (working c) →
  ∃ w', run (index_product prod) w = Returned () w' ∧
        session w' (set_working
                      (append_rows "products" [product_values prod] (working c)) c) ∧
        frame (db_path c) w w'.
Proof.
  intros Hs (Hp & _ & _).
  by apply (insert_ok _ products_columns).
Qed.

Lemma carries_payload_idx_change prod r :
  carries_payload r = true → ∃ ic, idx_change_of prod r = Ok ic.
Proof.
  unfold carries_payload, idx_change_of.
  destruct (String.eqb _ "download").
  - intros [dr ->]%bool_decide_eq_true. simpl. by eexists.
  - destruct (String.eqb _ "property"); [|by eexists].
    intros [pr ->]%bool_decide_eq_true. simpl. by eexists.
Qed.

Lemma idx_changes_of_ok prod cl :
  forallb carries_payload cl = true → ∃ ics, idx_changes_of prod cl = Ok ics.
Proof.
  induction cl as [|r cl IH]; simpl; [by eexists|].
  intros [Hr Hcl]%andb_true_iff.
  destruct (carries_payload_idx_change prod r Hr) as [ic ->].
  destruct (IH Hcl) as [ics ->]. by eexists.
Qed.

Lemma idx_changes_of_Forall2 prod cl ics :
  idx_changes_of prod cl = Ok ics →
  Forall2 (λ r ic, idx_change_of prod r = Ok ic) cl ics.
Proof.
  revert ics. induction cl as [|r cl IH]; simpl; intros ics H.
  - simplify_eq. constructor.
  - destruct (idx_change_of prod r) as [ic|] eqn:Hr; [|done].
    destruct (idx_changes_of prod cl) as [ics'|]; [|done].
    simplify_eq. constructor; auto.
Qed.


Lemma index_changelog_records_ok prod cl ics m c w :
  session w c → has_schema (working c) → idx_changes_of prod cl = Ok ics →
  ∃ w', run (index_changelog_records prod cl m) w =
          Returned
            (foldl (λ m r, defaultdict_add (ChangeRecord.timestamp r)
                                           (ChangeRecord.category r) m) m cl) w' ∧
        session w' (set_working
                      (append_rows "changelog" (changelog_values <$> ics) (working c)) c) ∧
        frame (db_path c) w w'.
Proof.
  revert ics m c w. induction cl as [|r cl IH]; intros ics m c w Hs Hsch Hics.
  - simpl in Hics. simplify_eq. exists w. simpl.
    rewrite append_rows_nil, set_working_working.
    split; [done|]. split; [done|]. apply frame_refl.
  - simpl in Hics.
    destruct (idx_change_of prod r) as [ic|] eqn:Hr; [|done].
    destruct (idx_changes_of prod cl) as [ics'|] eqn:Hcl; [|done].
    simplify_eq.
    destruct (insert_ok "changelog" changelog_columns (changelog_values ic) c w)
      as (w1 & Hrun1 & Hs1 & Hfr1); [done|apply Hsch|done|].
    destruct (IH ics'
                (defaultdict_add (ChangeRecord.timestamp r) (ChangeRecord.category r) m)
                _ w1 Hs1) as (w2 & Hrun2 & Hs2 & Hfr2).
    { simpl. by apply has_schema_append. }
    { done. }
    exists w2. split; [|split].
    + cbn [index_changelog_records]. rewrite run_bind. unfold lift at 1.
      rewrite Hr, run_ret, run_bind, Hrun1. exact Hrun2.
    + simpl in Hs2. rewrite append_rows_app in Hs2. exact Hs2.
    + eapply frame_trans; [exact Hfr1|exact Hfr2].
Qed.

Lemma index_changelog_summaries_ok prod items c w :
  session w c → has_schema (working c) →
  ∃ w', run (index_changelog_summaries prod items) w = Returned () w' ∧
        session w' (set_working
                      (append_rows "changelog_summary"
                         (summary_values prod (hash_order w) <$> items) (working c)) c) ∧
        frame (db_path c) w w'.
Proof.
  revert c w. induction items as [|item items IH]; intros c w Hs Hsch.
  - exists w. simpl. rewrite append_rows_nil, set_working_working.
    split; [done|]. split; [done|]. apply frame_refl.
  - destruct (insert_ok "changelog_summary" changelog_summary_columns
                (summary_values prod (hash_order w) item) c w)
      as (w1 & Hrun1 & Hs1 & Hfr1); [done|apply Hsch|by destruct item|].
    destruct (IH _ w1 Hs1) as (w2 & Hrun2 & Hs2 & Hfr2).
    { simpl. by apply has_schema_append. }
    exists w2. split; [|split].
    + cbn [index_changelog_summaries]. rewrite run_gets, run_bind, Hrun1.
      exact Hrun2.
    + simpl in Hs2. rewrite append_rows_app in Hs2.
      destruct Hfr1 as [-> _] in Hs2. exact Hs2.
    + eapply frame_trans; [exact Hfr1|exact Hfr2].
Qed.

Lemma index_changelog_ok prod cl ics c w :
  session w c → has_schema (working c) → idx_changes_of prod cl = Ok ics →
  ∃ w', run (index_changelog prod cl) w = Returned () w' ∧
        session w' (set_working
                      (append_rows "changelog_summary"
                         (summary_values prod (hash_order w) <$> summaries_of cl)
                         (append_rows "changelog" (changelog_values <$> ics)
                            (working c))) c) ∧
        frame (db_path c) w w'.
Proof.
  intros Hs Hsch Hics.
  destruct (index_changelog_records_ok prod cl ics [] c w Hs Hsch Hics)
    as (w1 & Hrun1 & Hs1 & Hfr1).
  destruct (index_changelog_summaries_ok prod (summaries_of cl) _ w1 Hs1)
    as (w2 & Hrun2 & Hs2 & Hfr2).
  { simpl. by apply has_schema_append. }
  exists w2. split; [|split].
  - unfold index_changelog. rewrite run_bind, Hrun1. exact Hrun2.
  - simpl in Hs2. destruct Hfr1 as [Ho _]. rewrite Ho in Hs2. exact Hs2.
  - eapply frame_trans; [exact Hfr1|exact Hfr2].
Qed.

(** ** The dictionary of summaries *)

Lemma defaultdict_add_keys k c m x :
  x ∈ (defaultdict_add k c m).*1 ↔ x = k ∨ x ∈ m.*1.
Proof.
  pure_fact.
  induction m as [|[k' s] m IH]; simpl.
  - set_solver.
  - destruct (decide (k' = k)) as [->|Hne]; simpl; set_solver.
Qed.

Lemma defaultdict_add_NoDup k c m :
  NoDup m.*1 → NoDup (defaultdict_add k c m).*1.
Proof.
  induction m as [|[k' s] m IH]; simpl.
  - intros _. apply NoDup_singleton.
  - intros [Hk' Hm]%NoDup_cons.
    destruct (decide (k' = k)) as [->|Hne]; simpl.
    + by apply NoDup_cons.
    + apply NoDup_cons. split; [|by apply IH].
      rewrite defaultdict_add_keys. intros [?|?]; done.
Qed.

Lemma defaultdict_get_add k c m k' :
  defaultdict_get k' (defaultdict_add k c m) =
  if decide (k = k') then {[c]} ∪ defaultdict_get k m else defaultdict_get k' m.
Proof.
  pure_fact.
  induction m as [|[k0 s] m IH]; simpl.
  - destruct (decide (k = k')) as [->|Hne]; [set_solver|done].
  - destruct (decide (k0 = k)) as [->|Hne]; simpl.
    + destruct (decide (k = k')); [done|done].
    + destruct (decide (k0 = k')) as [->|Hne'].
      * by rewrite decide_False by done.
      * exact IH.
Qed.

Lemma defaultdict_get_elem k s m :
  NoDup m.*1 → (k, s) ∈ m → defaultdict_get k m = s.
Proof.
  induction m as [|[k0 s0] m IH]; simpl.
  - intros _ H. by apply elem_of_nil in H.
  - intros [Hk0 Hm]%NoDup_cons [Heq|Hin]%elem_of_cons.
    + simplify_eq. by rewrite decide_True.
    + destruct (decide (k0 = k)) as [->|Hne]; [|by apply IH].
      exfalso. apply Hk0. apply list_elem_of_fmap. by exists (k, s).
Qed.

Lemma summaries_keys cl m x :
  x ∈ (foldl (λ m r, defaultdict_add (ChangeRecord.timestamp r)
                                     (ChangeRecord.category r) m) m cl).*1 ↔
  x ∈ m.*1 ∨ x ∈ ChangeRecord.timestamp <$> cl.
Proof.
  pure_fact.
  revert m. induction cl as [|r cl IH]; intros m; simpl.
  - set_solver.
  - rewrite IH, defaultdict_add_keys. set_solver.
Qed.

Lemma summaries_NoDup cl m :
  NoDup m.*1 →
  NoDup (foldl (λ m r, defaultdict_add (ChangeRecord.timestamp r)
                                       (ChangeRecord.category r) m) m cl).*1.
Proof.
  revert m. induction cl as [|r cl IH]; intros m Hm; simpl; [done|].
  apply IH. by apply defaultdict_add_NoDup.
Qed.

Lemma summaries_get cl m k :
  defaultdict_get k (foldl (λ m r, defaultdict_add (ChangeRecord.timestamp r)
                                                   (ChangeRecord.category r) m) m cl) =
  defaultdict_get k m ∪ list_to_set (categories_at k cl).
Proof.
  pure_fact.
  revert m. induction cl as [|r cl IH]; intros m; simpl.
  - unfold categories_at. simpl. set_solver.
  - rewrite IH, defaultdict_get_add.
    unfold categories_at. rewrite filter_cons.
    destruct (decide (ChangeRecord.timestamp r = k)) as [->|Hne]; simpl.
    + set_solver.
    + done.
Qed.

Lemma summaries_of_keys cl :
  (summaries_of cl).*1 ≡ₚ remove_dups (ChangeRecord.timestamp <$> cl).
Proof.
  pure_fact.
  apply NoDup_Permutation.
  - apply summaries_NoDup. constructor.
  - apply NoDup_remove_dups.
  - intros x. unfold summaries_of. rewrite summaries_keys, elem_of_remove_dups.
    set_solver.
Qed.

Lemma summaries_of_values cl k s :
  (k, s) ∈ summaries_of cl → s = list_to_set (categories_at k cl).
Proof.
  pure_fact.
  intros Hin.
  rewrite <- (defaultdict_get_elem k s (summaries_of cl)); [|apply summaries_NoDup; constructor|done].
  unfold summaries_of. rewrite summaries_get. simpl. set_solver.
Qed.

Lemma summaries_of_items cl :
  summaries_of cl =
  (λ k, (k, list_to_set (categories_at k cl))) <$> (summaries_of cl).*1.
Proof.
  rewrite <- list_fmap_compose.
  rewrite <- (list_fmap_id (summaries_of cl)) at 1.
  apply list_fmap_ext. intros i [k s] Hin%list_elem_of_lookup_2. simpl.
  by rewrite (summaries_of_values cl k s Hin).
Qed.

(** ** [sorted] erases the order of iteration *)

Lemma sorted_Permutation l1 l2 : l1 ≡ₚ l2 → sorted l1 = sorted l2.
Proof.
  intros Hp. unfold sorted. apply (Sorted_unique String.le).
  - apply Sorted_merge_sort. apply _.
  - apply Sorted_merge_sort. apply _.
  - by rewrite !merge_sort_Permutation.
Qed.

Lemma sorted_set_order (order : gset string → list string) (cats : list string) :
  (∀ s, order s ≡ₚ elements s) →
  sorted (order (list_to_set cats)) = sorted (remove_dups cats).
Proof.
  intros Ho. apply sorted_Permutation. rewrite Ho.
  apply NoDup_Permutation.
  - apply NoDup_elements.
  - apply NoDup_remove_dups.
  - intros x. rewrite elem_of_elements, elem_of_list_to_set, elem_of_remove_dups.
    done.
Qed.

Lemma summary_rows_Permutation prod order cl :
  (∀ s, order s ≡ₚ elements s) →
  summary_values prod order <$> summaries_of cl ≡ₚ summary_rows_spec prod cl.
Proof.
  intros Ho. rewrite summaries_of_items at 1. rewrite <- list_fmap_compose.
  unfold summary_rows_spec. rewrite <- summaries_of_keys.
  erewrite list_fmap_ext; [reflexivity|].
  intros i k _. simpl. by rewrite sorted_set_order.
Qed.

Lemma categories_at_Permutation ts cl cl' :
  cl ≡ₚ cl' → categories_at ts cl ≡ₚ categories_at ts cl'.
Proof. intros Hp. unfold categories_at. by rewrite Hp. Qed.

Lemma remove_dups_Permutation `{EqDecision A} (l l' : list A) :
  l ≡ₚ l' → remove_dups l ≡ₚ remove_dups l'.
Proof.
  intros Hp. apply NoDup_Permutation; [apply NoDup_remove_dups..|].
  intros x. rewrite !elem_of_remove_dups. by rewrite Hp.
Qed.

Lemma summary_rows_spec_Permutation prod cl cl' :
  cl ≡ₚ cl' → summary_rows_spec prod cl ≡ₚ summary_rows_spec prod cl'.
Proof.
  intros Hp. unfold summary_rows_spec.
  rewrite (remove_dups_Permutation (ChangeRecord.timestamp <$> cl)
             (ChangeRecord.timestamp <$> cl')) by (by rewrite Hp).
  erewrite list_fmap_ext; [reflexivity|].
  intros i ts _. simpl.
  by rewrite (sorted_Permutation (remove_dups (categories_at ts cl))
                (remove_dups (categories_at ts cl')))
    by apply remove_dups_Permutation, categories_at_Permutation, Hp.
Qed.

(** ** What [idx_change_of] builds *)

Lemma idx_change_of_common prod r ic :
  idx_change_of prod r = Ok ic →
  IndexChange.id ic = Product.id prod ∧
  IndexChange.title ic = Product.title prod ∧
  IndexChange.timestamp ic = ChangeRecord.timestamp r ∧
  IndexChange.action ic = ChangeRecord.action r ∧
  IndexChange.category ic = ChangeRecord.category r ∧
  IndexChange.record ic = r.
Proof.
  unfold idx_change_of. intros H.
  repeat case_match; simplify_eq; done.
Qed.

Lemma idx_change_of_download prod r dr :
  ChangeRecord.category r = "download" →
  ChangeRecord.download_record r = Some dr →
  ∃ ic, idx_change_of prod r = Ok ic ∧
        IndexChange.dl_type ic = Some (DownloadRecord.dl_type dr) ∧
        IndexChange.bonus_type ic = bonus_type_spec dr ∧
        IndexChange.property_name ic = None.
Proof.
  intros Hc Hd. unfold idx_change_of, bonus_type_spec. rewrite Hc, Hd. simpl.
  eexists. split; [reflexivity|].
  destruct (DownloadRecord.dl_new_bonus dr), (DownloadRecord.dl_old_bonus dr); done.
Qed.

Lemma idx_change_of_other prod r :
  ChangeRecord.category r ≠ "download" →
  ChangeRecord.category r ≠ "property" →
  idx_change_of prod r =
  Ok (IndexChange.mk (Product.id prod) (Product.title prod)
        (ChangeRecord.timestamp r) (ChangeRecord.action r)
        (ChangeRecord.category r) None None None r).
Proof.
  intros Hd Hp. unfold idx_change_of.
  apply String.eqb_neq in Hd, Hp. by rewrite Hd, Hp.
Qed.

(** ** [index_changelog] between [prepare] and [finish] *)

Lemma accepting_append t rs c w' :
  has_schema (working c) →
  session w' (set_working (append_rows t rs (working c)) c) → accepting w'.
Proof.
  intros Hsch Hs. eexists. split; [exact Hs|]. simpl. by apply has_schema_append.
Qed.

Lemma index_changelog_run prod cl w :
  accepting w → forallb carries_payload cl = true →
  ∃ w' ics,
    run (index_changelog prod cl) w = Returned () w' ∧
    accepting w' ∧ hash_order w' = hash_order w ∧
    Forall2 (λ r ic, idx_change_of prod r = Ok ic) cl ics ∧
    table_rows "products" (session_db w') = table_rows "products" (session_db w) ∧
    table_rows "changelog" (session_db w') =
      table_rows "changelog" (session_db w) ++ (changelog_values <$> ics) ∧
    table_rows "changelog_summary" (session_db w') =
      table_rows "changelog_summary" (session_db w) ++
      (summary_values prod (hash_order w) <$> summaries_of cl).
Proof.
  intros (c & Hs & Hsch) Hwf.
  destruct (idx_changes_of_ok prod cl Hwf) as [ics Hics].
  destruct (index_changelog_ok prod cl ics c w Hs Hsch Hics)
    as (w' & Hrun & Hs' & Hfr).
  exists w', ics. split; [done|].
  rewrite (session_db_eq _ _ Hs), (session_db_eq _ _ Hs'). simpl.
  destruct Hsch as (Hp & Hc & Hsum).
  split; [|split; [apply Hfr|split; [by apply idx_changes_of_Forall2|]]].
  { eexists. split; [exact Hs'|]. simpl.
    by apply has_schema_append, has_schema_append. }
  split; [|split].
  - by rewrite !table_rows_append_ne.
  - rewrite table_rows_append_ne by done.
    apply table_rows_append_eq. eapply has_columns_is_Some, Hc.
  - rewrite table_rows_append_eq
      by (eapply has_columns_is_Some, has_columns_append, Hsum).
    by rewrite table_rows_append_ne.
Qed.

Lemma index_product_run prod w :
  accepting w →
  ∃ w',
    run (index_product prod) w = Returned () w' ∧
    accepting w' ∧ hash_order w' = hash_order w ∧
    table_rows "products" (session_db w') =
      table_rows "products" (session_db w) ++ [product_values prod] ∧
    table_rows "changelog" (session_db w') = table_rows "changelog" (session_db w) ∧
    table_rows "changelog_summary" (session_db w') =
      table_rows "changelog_summary" (session_db w).
Proof.
  intros (c & Hs & Hsch).
  destruct (index_product_ok prod c w Hs Hsch) as (w' & Hrun & Hs' & Hfr).
  exists w'. split; [done|].
  rewrite (session_db_eq _ _ Hs), (session_db_eq _ _ Hs'). simpl.
  split; [by eapply accepting_append|]. split; [apply Hfr|].
  destruct Hsch as (Hp & _ & _). split; [|split].
  - apply table_rows_append_eq. eapply has_columns_is_Some, Hp.
  - by rewrite table_rows_append_ne.
  - by rewrite table_rows_append_ne.
Qed.

(** C3: in the state in which [process] runs, [index_product] returns and
    appends exactly one row to [products]; the [sale_rank] of that row is
    the product's bestseller rank when the product has one, and 100000 when
    it has none. *)
Theorem index_product_sale_rank prod w :
  accepting w →
  ∃ w' row,
    run (index_product prod) w = Returned () w' ∧
    table_rows "products" (session_db w') =
      table_rows "products" (session_db w) ++ [row] ∧
    (∀ r, Product.rank_bestselling prod = Some r →
          field products_columns "sale_rank" row = Some (INTEGER r)) ∧
    (Product.rank_bestselling prod = None →
     field products_columns "sale_rank" row = Some (INTEGER 100000)).
Proof.
  intros Hacc.
  destruct (index_product_run prod w Hacc) as (w' & Hrun & _ & _ & Hrows & _).
  exists w', (product_values prod). split; [done|]. split; [done|].
  unfold product_values. split.
  - by intros r ->.
  - by intros ->.
Qed.

(** C10: for every product and every list of change records, each carrying
    the payload of its category, [index_changelog] returns and appends to
    [changelog] exactly one row per record, in the order of the records;
    each row has the id and the title of the product, and the timestamp,
    action, category and serialization of its record. *)
Theorem index_changelog_one_row_per_record prod cl w :
  accepting w → forallb carries_payload cl = true →
  ∃ w' rows,
    run (index_changelog prod cl) w = Returned () w' ∧
    table_rows "changelog" (session_db w') =
      table_rows "changelog" (session_db w) ++ rows ∧
    length rows = length cl ∧
    Forall2 (λ r row,
        field changelog_columns "product_id" row = Some (INTEGER (Product.id prod)) ∧
        field changelog_columns "product_title" row = Some (TEXT (Product.title prod)) ∧
        field changelog_columns "timestamp" row =
          Some (REAL (posix_timestamp (ChangeRecord.timestamp r))) ∧
        field changelog_columns "action" row = Some (TEXT (ChangeRecord.action r)) ∧
        field changelog_columns "category" row = Some (TEXT (ChangeRecord.category r)) ∧
        field changelog_columns "serialized_record" row = Some (TEXT (json_dumps r)))
      cl rows.
Proof.
  intros Hacc Hwf.
  destruct (index_changelog_run prod cl w Hacc Hwf)
    as (w' & ics & Hrun & _ & _ & Hics & _ & Hrows & _).
  exists w', (changelog_values <$> ics). split; [done|]. split; [done|].
  split.
  { rewrite length_fmap. symmetry. by eapply Forall2_length. }
  apply Forall2_fmap_r. eapply Forall2_impl; [exact Hics|].
  intros r ic Hic. simpl in Hic.
  destruct (idx_change_of_common prod r ic Hic) as (H1 & H2 & H3 & H4 & H5 & H6).
  unfold changelog_values. simpl. by rewrite H1, H2, H3, H4, H5, H6.
Qed.

(** C4: for a change record of category [download], the [bonus_type] of
    its row is the bonus type of the new descriptor when only that one is
    present, the bonus type of the old descriptor when that one is present
    (alone or with the new one, whose value it overwrites), and unset when
    neither is present. *)
Theorem download_bonus_type prod cl w :
  accepting w → forallb carries_payload cl = true →
  ∃ w' rows,
    run (index_changelog prod cl) w = Returned () w' ∧
    table_rows "changelog" (session_db w') =
      table_rows "changelog" (session_db w) ++ rows ∧
    ∀ (i : nat) r dr,
      cl !! i = Some r →
      ChangeRecord.category r = "download" →
      ChangeRecord.download_record r = Some dr →
      ∃ row,
        rows !! i = Some row ∧
        (∀ new, DownloadRecord.dl_new_bonus dr = Some new →
                DownloadRecord.dl_old_bonus dr = None →
                field changelog_columns "bonus_type" row =
                  Some (TEXT (BonusContent.bonus_type new))) ∧
        (∀ old, DownloadRecord.dl_old_bonus dr = Some old →
                field changelog_columns "bonus_type" row =
                  Some (TEXT (BonusContent.bonus_type old))) ∧
        (DownloadRecord.dl_new_bonus dr = None →
         DownloadRecord.dl_old_bonus dr = None →
         field changelog_columns "bonus_type" row = Some NULL).
Proof.
  intros Hacc Hwf.
  destruct (index_changelog_run prod cl w Hacc Hwf)
    as (w' & ics & Hrun & _ & _ & Hics & _ & Hrows & _).
  exists w', (changelog_values <$> ics). split; [done|]. split; [done|].
  intros i r dr Hi Hcat Hdr.
  destruct (Forall2_lookup_l _ _ _ _ _ Hics Hi) as (ic & Hic & Hr).
  exists (changelog_values ic). split.
  { by rewrite list_lookup_fmap, Hic. }
  destruct (idx_change_of_download prod r dr Hcat Hdr) as (ic' & Hr' & _ & Hb & _).
  simpl in Hr. rewrite Hr in Hr'. simplify_eq.
  unfold changelog_values. simpl. rewrite Hb. unfold bonus_type_spec.
  split; [|split].
  - by intros new -> ->.
  - by intros old ->.
  - by intros -> ->.
Qed.

Lemma summaries_of_category cl r :
  r ∈ cl →
  ∃ s, (ChangeRecord.timestamp r, s) ∈ summaries_of cl ∧ ChangeRecord.category r ∈ s.
Proof.
  intros Hr.
  assert (ChangeRecord.timestamp r ∈ (summaries_of cl).*1) as Hk.
  { unfold summaries_of. rewrite summaries_keys. right.
    by apply list_elem_of_fmap_2. }
  apply list_elem_of_fmap in Hk as ([k s] & Hk & Hin). simpl in Hk. subst k.
  exists s. split; [done|].
  rewrite (summaries_of_values cl _ s Hin), elem_of_list_to_set.
  unfold categories_at. apply list_elem_of_fmap_2.
  by apply list_elem_of_filter.
Qed.

Lemma carries_payload_Permutation cl cl' :
  cl ≡ₚ cl' → forallb carries_payload cl = true → forallb carries_payload cl' = true.
Proof.
  intros Hp. rewrite !forallb_forall. intros H x Hx.
  apply H. apply list_elem_of_In. rewrite Hp. by apply list_elem_of_In.
Qed.

(** C9: a change record whose category is neither [download] nor
    [property] is indexed with the common fields only, its [dl_type],
    [bonus_type] and [property_name] being unset, and its category is among
    the categories joined in the summary row of its timestamp. *)
Theorem other_category_common_fields_only prod cl w :
  accepting w → set_order_valid w → forallb carries_payload cl = true →
  ∃ w' rows srows,
    run (index_changelog prod cl) w = Returned () w' ∧
    table_rows "changelog" (session_db w') =
      table_rows "changelog" (session_db w) ++ rows ∧
    table_rows "changelog_summary" (session_db w') =
      table_rows "changelog_summary" (session_db w) ++ srows ∧
    ∀ (i : nat) r,
      cl !! i = Some r →
      ChangeRecord.category r ≠ "download" →
      ChangeRecord.category r ≠ "property" →
      rows !! i =
        Some [INTEGER (Product.id prod);
              TEXT (Product.title prod);
              REAL (posix_timestamp (ChangeRecord.timestamp r));
              TEXT (ChangeRecord.action r);
              TEXT (ChangeRecord.category r);
              NULL; NULL; NULL;
              TEXT (json_dumps r)] ∧
      ∃ cats,
        ChangeRecord.category r ∈ cats ∧
        [INTEGER (Product.id prod);
         TEXT (Product.title prod);
         REAL (posix_timestamp (ChangeRecord.timestamp r));
         TEXT (join "," cats)] ∈ srows.
Proof.
  intros Hacc Hord Hwf.
  destruct (index_changelog_run prod cl w Hacc Hwf)
    as (w' & ics & Hrun & _ & _ & Hics & _ & Hrows & Hsrows).
  eexists w', _, _. split; [done|]. split; [done|]. split; [done|].
  intros i r Hi Hd Hp. split.
  - destruct (Forall2_lookup_l _ _ _ _ _ Hics Hi) as (ic & Hic & Hr).
    simpl in Hr. rewrite (idx_change_of_other prod r Hd Hp) in Hr.
    simplify_eq. by rewrite list_lookup_fmap, Hic.
  - destruct (summaries_of_category cl r) as (s & Hin & Hcat).
    { by eapply list_elem_of_lookup_2. }
    exists (sorted (hash_order w s)). split.
    + assert (sorted (hash_order w s) ≡ₚ elements s) as ->.
      { unfold sorted. etrans; [apply merge_sort_Permutation|apply Hord]. }
      by apply elem_of_elements.
    + apply (list_elem_of_fmap_2 (summary_values prod (hash_order w))) in Hin.
      exact Hin.
Qed.

(** C2: [index_changelog] writes one summary row per distinct timestamp of
    the records, whose [categories] is the comma-joined, sorted,
    deduplicated list of the category tags of the records bearing that
    timestamp; the rows written for a permutation of the records are, up to
    their order, the same. *)
Theorem index_changelog_summary_rows prod cl cl' w1 w2 :
  accepting w1 → set_order_valid w1 →
  accepting w2 → set_order_valid w2 →
  forallb carries_payload cl = true → cl ≡ₚ cl' →
  ∃ w1' w2' srows srows',
    run (index_changelog prod cl) w1 = Returned () w1' ∧
    run (index_changelog prod cl') w2 = Returned () w2' ∧
    table_rows "changelog_summary" (session_db w1') =
      table_rows "changelog_summary" (session_db w1) ++ srows ∧
    table_rows "changelog_summary" (session_db w2') =
      table_rows "changelog_summary" (session_db w2) ++ srows' ∧
    srows ≡ₚ
      (λ ts, [INTEGER (Product.id prod);
              TEXT (Product.title prod);
              REAL (posix_timestamp ts);
              TEXT (join "," (sorted (remove_dups (categories_at ts cl))))])
      <$> remove_dups (ChangeRecord.timestamp <$> cl) ∧
    srows' ≡ₚ srows.
Proof.
  intros Hacc1 Hord1 Hacc2 Hord2 Hwf Hp.
  destruct (index_changelog_run prod cl w1 Hacc1 Hwf)
    as (w1' & ics1 & Hrun1 & _ & _ & _ & _ & _ & Hs1).
  destruct (index_changelog_run prod cl' w2 Hacc2
              (carries_payload_Permutation _ _ Hp Hwf))
    as (w2' & ics2 & Hrun2 & _ & _ & _ & _ & _ & Hs2).
  eexists w1', w2', _, _. do 4 (split; [done|]).
  split.
  - by apply summary_rows_Permutation.
  - rewrite !summary_rows_Permutation by done.
    symmetry. by apply summary_rows_spec_Permutation.
Qed.

Lemma process_product_only self prod w :
  run (process self (mkBundle (Some prod) None)) w =
  run (index_product prod;; mret ()) w.
Proof. reflexivity. Qed.

Lemma process_both self prod cl w :
  run (process self (mkBundle (Some prod) (Some cl))) w =
  run (index_product prod;; index_changelog prod cl) w.
Proof. reflexivity. Qed.


(** ** [init_db] *)

(** One [cur.execute] of a sequence, on a session: the statement is run by
    computation and the session after it is named. *)
Ltac exec_step Hs w' Hs' Hf :=
  rewrite run_bind;
  lazymatch goal with
  | |- context [run (cur_execute ?s) ?w] =>
      let Hrun := fresh "Hrun" in
      edestruct (cur_execute_ok s) as (w' & Hrun & Hs' & Hf & _);
      [exact Hs|vm_compute; reflexivity|]; rewrite Hrun; clear Hrun
  end.

Lemma init_db_fresh w c :
  session w c → working c = empty_database →
  ∃ w', run init_db w = Returned () w' ∧
        session w' (set_working indexdb_schema c) ∧
        frame (db_path c) w w'.
Proof.
  intros Hs Hd. destruct c as [p d t]. simpl in Hd. subst d.
  unfold init_db.
  exec_step Hs w1 Hs1 Hf1.
  exec_step Hs1 w2 Hs2 Hf2.
  exec_step Hs2 w3 Hs3 Hf3.
  exec_step Hs3 w4 Hs4 Hf4.
  exec_step Hs4 w5 Hs5 Hf5.
  edestruct (cur_execute_ok
               (CREATE_INDEX "idx_summary_timestamp" "changelog_summary" "timestamp"))
    as (w6 & Hrun & Hs6 & Hf6 & _); [exact Hs5|vm_compute; reflexivity|].
  exists w6. split; [exact Hrun|]. split; [exact Hs6|].
  simpl in *.
  repeat (eapply frame_trans; [eassumption|]). apply frame_refl.
Qed.

Lemma init_db_taken w c :
  session w c → name_taken "products" (working c) = true →
  run init_db w = Raised (OperationalError "already exists") w.
Proof.
  intros Hs Ht. unfold init_db. rewrite run_bind.
  rewrite (cur_execute_err _ c (OperationalError "already exists")); [done|done|].
  simpl. by rewrite Ht.
Qed.

(** C8, as the code has it: on an empty store [init_db] returns and leaves
    the three tables and the three indexes; the tables and indexes are
    created unconditionally, so that a second call on the same store raises
    at the first [CREATE TABLE] and changes nothing. *)
Theorem init_db_once w c :
  session w c → working c = empty_database →
  ∃ w',
    run init_db w = Returned () w' ∧
    session_db w' = indexdb_schema ∧
    run init_db w' = Raised (OperationalError "already exists") w'.
Proof.
  intros Hs Hd.
  destruct (init_db_fresh w c Hs Hd) as (w' & Hrun & Hs' & _).
  exists w'. split; [done|]. split.
  - by rewrite (session_db_eq _ _ Hs').
  - by apply (init_db_taken w' _ Hs').
Qed.

(** ** Confinement to the staging path *)

Lemma untouched_except_refl p w : untouched_except p w w.
Proof. by intros q _. Qed.

Lemma untouched_except_trans p w1 w2 w3 :
  untouched_except p w1 w2 → untouched_except p w2 w3 → untouched_except p w1 w3.
Proof. intros H1 H2 q Hq. by rewrite H2, H1. Qed.

Lemma confined_ret {A} p (a : A) : confined p (mret a).
Proof. intros w Hc. split; [done|apply untouched_except_refl]. Qed.

Lemma confined_raise {A} p e : confined p (@raise A e).
Proof. intros w Hc. split; [done|apply untouched_except_refl]. Qed.

Lemma confined_lift {A} p (r : result A) : confined p (lift r).
Proof. destruct r; [apply confined_ret|apply confined_raise]. Qed.

Lemma confined_gets {A} p (f : world → A) : confined p (py_gets f).
Proof. intros w Hc. split; [done|apply untouched_except_refl]. Qed.

Lemma confined_bind {A B} p (m : py A) (k : A → py B) :
  confined p m → (∀ a, confined p (k a)) → confined p (m ≫= k).
Proof.
  intros Hm Hk w Hc. rewrite run_bind.
  destruct (Hm w Hc) as [Hc1 Hu1].
  destruct (run m w) as [a w1|e w1]; simpl in *; [|done].
  destruct (Hk a w1 Hc1) as [Hc2 Hu2].
  split; [done|]. by eapply untouched_except_trans.
Qed.

Lemma confined_io {A} p (act : world → outcome A) :
  confined p act → confined p (io act).
Proof.
  intros Hact w Hc. unfold run, io.
  destruct (fates w) as [|[|e] rest].
  - by apply Hact.
  - by apply (Hact (set_fates rest w)).
  - split; [done|by intros q _].
Qed.

Lemma confined_path_mkdir p d : confined p (path_mkdir d).
Proof.
  apply confined_io. intros w Hc. split; [done|by intros q _].
Qed.

Lemma confined_path_unlink p : confined p (path_unlink p).
Proof.
  apply confined_io. intros w Hc. split; [done|].
  intros q Hq. simpl. by rewrite lookup_delete_ne.
Qed.

Lemma confined_aiosqlite_connect p : confined p (aiosqlite_connect p).
Proof.
  apply confined_io. intros w Hc. split.
  - intros c. simpl. by intros [= <-].
  - intros q Hq. simpl. by rewrite lookup_insert_ne.
Qed.

Lemma confined_conn_cursor p : confined p conn_cursor.
Proof.
  intros w Hc. unfold run, conn_cursor.
  destruct (self_conn w) eqn:Hconn; [|split; [done|by intros q _]].
  apply (confined_io p (λ w, Returned () (set_cur (Some (Cursor false [])) w))); [|done].
  intros w' Hc'. split; [done|by intros q _].
Qed.

Lemma confined_store p c w :
  db_path c = p → untouched_except p w (store c w).
Proof. intros <- q Hq. by apply store_files_ne. Qed.

Lemma confined_cur_execute p s : confined p (cur_execute s).
Proof.
  intros w Hc. unfold run, cur_execute.
  destruct (self_cur w) as [cu|]; [|split; [done|by intros q _]].
  revert w Hc. apply confined_io. intros w Hc. unfold run.
  destruct (self_conn w) as [c|] eqn:Hconn; [|split; [done|by intros q _]].
  destruct (closed cu); [split; [done|by intros q _]|].
  destruct (sql_exec s c) as [[c' rs]|e] eqn:Hexec;
    [|split; [done|by intros q _]].
  assert (db_path c' = p) as Hp.
  { rewrite (sql_exec_path _ _ _ _ Hexec). by apply Hc. }
  simpl. split.
  - intros c0. rewrite store_conn. simpl. by intros [= <-].
  - eapply untouched_except_trans; [|by apply confined_store].
    by intros q _.
Qed.

Lemma confined_cur_fetchone p : confined p cur_fetchone.
Proof.
  intros w Hc. unfold run, cur_fetchone.
  destruct (self_cur w) as [cu|]; [|split; [done|by intros q _]].
  revert w Hc. apply confined_io. intros w Hc. unfold run.
  destruct (self_conn w); [|split; [done|by intros q _]].
  destruct (pending cu); (split; [done|by intros q _]).
Qed.

Lemma confined_getitem0 p r : confined p (getitem0 r).
Proof.
  destruct r as [[|v r]|]; simpl;
    [apply confined_raise|apply confined_ret|apply confined_raise].
Qed.

Lemma confined_cur_close p : confined p cur_close.
Proof.
  intros w Hc. unfold run, cur_close.
  destruct (self_cur w) as [cu|]; [|split; [done|by intros q _]].
  revert w Hc. apply confined_io. intros w Hc. unfold run.
  destruct (self_conn w); (split; [done|by intros q _]).
Qed.

Lemma confined_conn_commit p : confined p conn_commit.
Proof.
  intros w Hc. unfold run, conn_commit.
  destruct (self_conn w) as [c|] eqn:Hconn; [|split; [done|by intros q _]].
  assert (db_path c = p) as Hp by by apply Hc.
  apply (confined_io p
    (λ w, Returned () (store (set_in_transaction false c)
                         (set_conn (Some (set_in_transaction false c)) w)))); [|done].
  clear w Hc Hconn. intros w Hc. unfold run. simpl. split.
  - intros c0. rewrite store_conn. simpl. by intros [= <-].
  - eapply untouched_except_trans; [|by apply confined_store].
    by intros q _.
Qed.

Lemma confined_conn_close p : confined p conn_close.
Proof.
  intros w Hc. unfold run, conn_close.
  destruct (self_conn w) as [c|] eqn:Hconn; [|split; [done|by intros q _]].
  apply (confined_io p (λ w, Returned () (set_conn None w))); [|done].
  clear w Hc Hconn. intros w Hc. split; [done|by intros q _].
Qed.

Lemma confined_print p args : confined p (print args).
Proof.
  apply confined_io. intros w Hc. split; [done|by intros q _].
Qed.

Create HintDb confined.

#[local] Hint Resolve confined_ret confined_raise confined_lift confined_gets
  confined_path_mkdir confined_path_unlink confined_aiosqlite_connect
  confined_conn_cursor confined_cur_execute confined_cur_fetchone
  confined_getitem0 confined_cur_close confined_conn_commit
  confined_conn_close confined_print : confined.

Ltac confined_steps :=
  repeat first
    [ apply confined_bind; [|intros ?]
    | solve [eauto with confined] ].

Lemma confined_init_db p : confined p init_db.
Proof. unfold init_db. confined_steps. Qed.

Lemma confined_count_rows p t : confined p (count_rows t).
Proof. unfold count_rows. confined_steps. Qed.

Lemma confined_index_product p prod : confined p (index_product prod).
Proof. unfold index_product. confined_steps. Qed.

Lemma confined_index_changelog_records p prod cl m :
  confined p (index_changelog_records prod cl m).
Proof.
  revert m. induction cl as [|r cl IH]; intros m; simpl.
  - apply confined_ret.
  - apply confined_bind; [apply confined_lift|intros ic].
    apply confined_bind; [apply confined_cur_execute|intros _]. apply IH.
Qed.

Lemma confined_index_changelog_summaries p prod items :
  confined p (index_changelog_summaries prod items).
Proof.
  induction items as [|item items IH]; simpl.
  - apply confined_ret.
  - apply confined_bind; [apply confined_gets|intros order].
    apply confined_bind; [apply confined_cur_execute|intros _]. apply IH.
Qed.

Lemma confined_index_changelog p prod cl : confined p (index_changelog prod cl).
Proof.
  unfold index_changelog.
  apply confined_bind; [apply confined_index_changelog_records|intros m].
  apply confined_index_changelog_summaries.
Qed.

Lemma confined_process p self data : confined p (process self data).
Proof.
  unfold process. destruct (product data) as [prod|]; [|apply confined_ret].
  apply confined_bind; [apply confined_index_product|intros _].
  destruct (changelog data) as [cl|]; [|apply confined_ret].
  apply confined_index_changelog.
Qed.

Lemma confined_process_all p self bundles : confined p (process_all self bundles).
Proof.
  induction bundles as [|data bundles IH]; simpl.
  - apply confined_ret.
  - apply confined_bind; [apply confined_process|intros _]. apply IH.
Qed.

Lemma confined_prepare self : confined (indexdb_path_part self) (prepare self).
Proof.
  unfold prepare.
  repeat (apply confined_bind; [|intros _]);
    eauto using confined_init_db with confined.
Qed.

(** ** Nothing but [os.replace] touches the live path *)

Lemma guarded_confined {A} p (m : py A) : confined p m → guarded p m.
Proof.
  intros Hm w Hc e w' Hrun. destruct (Hm w Hc) as [_ Hu].
  by rewrite Hrun in Hu.
Qed.

Lemma guarded_bind {A B} p (m : py A) (k : A → py B) :
  confined p m → (∀ a, guarded p (k a)) → guarded p (m ≫= k).
Proof.
  intros Hm Hk w Hc e w'. rewrite run_bind.
  destruct (Hm w Hc) as [Hc1 Hu1].
  destruct (run m w) as [a w1|e1 w1]; simpl in *.
  - intros Hrun. eapply untouched_except_trans; [exact Hu1|].
    by eapply Hk.
  - by intros [= _ <-].
Qed.

Lemma guarded_os_replace p src dst : guarded p (os_replace src dst).
Proof.
  intros w _ e w'. unfold run, os_replace, io.
  destruct (fates w) as [|[|e'] rest]; simpl.
  - destruct (files w !! src); [done|]. by intros [= _ <-].
  - destruct (files w !! src); [done|]. intros [= _ <-]. by intros q _.
  - intros [= _ <-]. by intros q _.
Qed.

Lemma guarded_finish self : guarded (indexdb_path_part self) (finish self).
Proof.
  unfold finish.
  repeat (apply guarded_bind;
          [eauto using confined_count_rows with confined|intros ?]).
  apply guarded_os_replace.
Qed.

Lemma guarded_rebuild_body self bundles :
  guarded (indexdb_path_part self)
    (prepare self;; process_all self bundles;; finish self).
Proof.
  apply guarded_bind; [apply confined_prepare|intros _].
  apply guarded_bind; [apply confined_process_all|intros _].
  apply guarded_finish.
Qed.

Lemma run_init {A} live (k : IndexDbProcessor → py A) w :
  run (init live ≫= k) w =
  run (k (mkIndexDbProcessor live (with_name live (name live +:+ ".part"))))
      (set_cur None (set_conn None w)).
Proof. reflexivity. Qed.

Lemma append_part_ne (s : string) : s +:+ ".part" ≠ s.
Proof. induction s as [|a s IH]; simpl; [done|]. intros [= H]. by apply IH. Qed.

Lemma part_ne_live (live : path) : live ≠ with_name live (name live +:+ ".part").
Proof.
  destruct live as [d n]. unfold with_name, name, parent. simpl.
  intros [= H]. symmetry in H. by apply append_part_ne in H.
Qed.

(** C1: a rebuild that ends with an exception, whatever call raised it
    (a fault or an interruption at any call that reaches the outside, or an
    error of the code itself, up to and including a failing [os.replace]),
    leaves the file at the live path as it was before the rebuild; the only
    file it may have written is the staging file, at the live path with
    [.part] appended to its name. *)
Theorem rebuild_leaves_live_store live bundles w e w' :
  run (rebuild live bundles) w = Raised e w' →
  files w' !! live = files w !! live ∧
  untouched_except (with_name live (name live +:+ ".part")) w w'.
Proof.
  intros Hrun.
  assert (untouched_except (with_name live (name live +:+ ".part")) w w') as Hu.
  { unfold rebuild in Hrun. rewrite run_init in Hrun.
    eapply (guarded_rebuild_body _ bundles) in Hrun; [exact Hrun|].
    by intros c. }
  split; [|exact Hu]. apply Hu, part_ne_live.
Qed.

(** ** A whole rebuild without faults *)

Lemma has_schema_bundle_db order b d : has_schema d → has_schema (bundle_db order b d).
Proof.
  intros Hd. unfold bundle_db.
  destruct (product b); [|done]. destruct (changelog b).
  - by do 3 apply has_schema_append.
  - by apply has_schema_append.
Qed.

Lemma has_schema_bundles_db order bundles d :
  has_schema d → has_schema (bundles_db order bundles d).
Proof.
  unfold bundles_db. revert d.
  induction bundles as [|b bundles IH]; intros d Hd; simpl; [done|].
  by apply IH, has_schema_bundle_db.
Qed.

Lemma has_schema_indexdb_schema : has_schema indexdb_schema.
Proof. repeat split; by eexists. Qed.

Lemma process_ok self data c w :
  session w c → has_schema (working c) → bundle_well_formed data = true →
  ∃ w', run (process self data) w = Returned () w' ∧
        session w' (set_working (bundle_db (hash_order w) data (working c)) c) ∧
        frame (db_path c) w w'.
Proof.
  intros Hs Hsch Hwf. destruct data as [[prod|] cl].
  2:{ exists w. unfold bundle_db. simpl. rewrite set_working_working.
      split; [done|]. split; [done|apply frame_refl]. }
  destruct (index_product_ok prod c w Hs Hsch) as (w1 & Hrun1 & Hs1 & Hf1).
  destruct cl as [cl|].
  - unfold bundle_well_formed in Hwf. simpl in Hwf.
    destruct (idx_changes_of_ok prod cl Hwf) as [ics Hics].
    destruct (index_changelog_ok prod cl ics _ w1 Hs1) as (w2 & Hrun2 & Hs2 & Hf2).
    { simpl. by apply has_schema_append. }
    { done. }
    exists w2. split; [|split].
    + rewrite process_both, run_bind, Hrun1. exact Hrun2.
    + unfold bundle_db, changelog_rows. simpl. rewrite Hics.
      destruct Hf1 as [Ho _]. rewrite Ho in Hs2. exact Hs2.
    + eapply frame_trans; [exact Hf1|exact Hf2].
  - exists w1. split; [|split].
    + by rewrite process_product_only, run_bind, Hrun1.
    + exact Hs1.
    + exact Hf1.
Qed.

Lemma process_all_ok self bundles c w :
  session w c → has_schema (working c) →
  forallb bundle_well_formed bundles = true →
  ∃ w', run (process_all self bundles) w = Returned () w' ∧
        session w' (set_working (bundles_db (hash_order w) bundles (working c)) c) ∧
        frame (db_path c) w w'.
Proof.
  revert c w. induction bundles as [|b bundles IH]; intros c w Hs Hsch Hwf.
  - exists w. unfold bundles_db. simpl. rewrite set_working_working.
    split; [done|]. split; [done|apply frame_refl].
  - simpl in Hwf. apply andb_true_iff in Hwf as [Hb Hbs].
    destruct (process_ok self b c w Hs Hsch Hb) as (w1 & Hrun1 & Hs1 & Hf1).
    destruct (IH _ w1 Hs1) as (w2 & Hrun2 & Hs2 & Hf2).
    { simpl. by apply has_schema_bundle_db. }
    { done. }
    exists w2. split; [|split].
    + cbn [process_all]. by rewrite run_bind, Hrun1.
    + destruct Hf1 as [Ho _]. rewrite Ho in Hs2. exact Hs2.
    + eapply frame_trans; [exact Hf1|exact Hf2].
Qed.

Lemma summary_values_order prod o1 o2 item :
  (∀ s, o1 s ≡ₚ elements s) → (∀ s, o2 s ≡ₚ elements s) →
  summary_values prod o1 item = summary_values prod o2 item.
Proof.
  intros H1 H2. destruct item as [ts s]. simpl.
  by rewrite (sorted_Permutation (o1 s) (o2 s)) by (by rewrite H1, H2).
Qed.

Lemma bundles_db_order o1 o2 bundles d :
  (∀ s, o1 s ≡ₚ elements s) → (∀ s, o2 s ≡ₚ elements s) →
  bundles_db o1 bundles d = bundles_db o2 bundles d.
Proof.
  intros H1 H2. revert d. unfold bundles_db.
  induction bundles as [|b bundles IH]; intros d; simpl.
  { reflexivity. }
  rewrite IH. f_equal. unfold bundle_db.
  destruct (product b) as [prod|]; [|done].
  destruct (changelog b) as [cl|]; [|done]. f_equal.
  apply list_fmap_ext. intros i item _. by apply summary_values_order.
Qed.

Lemma run_path_mkdir d w :
  fates w = [] →
  run (path_mkdir d) w = Returned () (set_dirs ({[d]} ∪ dirs w) w).
Proof. intros Hf. unfold run, path_mkdir. by rewrite io_proceed. Qed.

Lemma run_path_unlink p w :
  fates w = [] →
  run (path_unlink p) w = Returned () (set_files (delete p (files w)) w).
Proof. intros Hf. unfold run, path_unlink. by rewrite io_proceed. Qed.

Lemma run_aiosqlite_connect p w :
  fates w = [] →
  run (aiosqlite_connect p) w =
  Returned ()
    (set_conn (Some (Connection p (default empty_database (files w !! p)) false))
       (set_files (<[p := default empty_database (files w !! p)]> (files w)) w)).
Proof. intros Hf. unfold run, aiosqlite_connect. by rewrite io_proceed. Qed.

Lemma run_conn_cursor c w :
  fates w = [] → self_conn w = Some c →
  run conn_cursor w = Returned () (set_cur (Some (Cursor false [])) w).
Proof. intros Hf Hc. unfold run, conn_cursor. by rewrite Hc, io_proceed. Qed.

Lemma prepare_ok self w :
  fates w = [] →
  ∃ w', run (prepare self) w = Returned () w' ∧
        session w' (Connection (indexdb_path_part self) indexdb_schema true) ∧
        frame (indexdb_path_part self) w w'.
Proof.
  intros Hf. unfold prepare.
  rewrite run_bind, run_path_mkdir by done.
  rewrite run_bind, run_path_unlink by done.
  rewrite run_bind, run_aiosqlite_connect by done.
  rewrite run_bind. erewrite run_conn_cursor; [|done|reflexivity].
  cbn [files set_files set_dirs]. rewrite lookup_delete_eq. cbn [default].
  match goal with |- context [run _ ?w0] => set (w4 := w0) end.
  assert (session w4 (Connection (indexdb_path_part self) empty_database false)) as Hs4.
  { repeat split; [done|by eexists|]. intros _. simpl. by rewrite lookup_insert_eq. }
  assert (frame (indexdb_path_part self) w w4) as Hf4.
  { split; [done|]. intros q Hq. simpl.
    by rewrite lookup_insert_ne, lookup_delete_ne. }
  clearbody w4.
  destruct (init_db_fresh w4 _ Hs4 eq_refl) as (w5 & Hrun5 & Hs5 & Hf5).
  rewrite run_bind, Hrun5.
  exec_step Hs5 w6 Hs6 Hf6.
  exec_step Hs6 w7 Hs7 Hf7.
  exec_step Hs7 w8 Hs8 Hf8.
  edestruct (cur_execute_ok (DELETE_FROM "changelog_summary"))
    as (w9 & Hrun9 & Hs9 & Hf9 & _); [exact Hs8|vm_compute; reflexivity|].
  exists w9. split; [exact Hrun9|]. split; [exact Hs9|].
  simpl in *.
  repeat (eapply frame_trans; [eassumption|]). apply frame_refl.
Qed.

Lemma run_cur_fetchone c cl r rest w :
  fates w = [] → self_conn w = Some c →
  self_cur w = Some (Cursor cl (r :: rest)) →
  run cur_fetchone w = Returned (Some r) (set_cur (Some (Cursor cl rest)) w).
Proof.
  intros Hf Hconn Hc. unfold run, cur_fetchone. by rewrite Hc, io_proceed, Hconn.
Qed.

Lemma run_cur_close c cu w :
  fates w = [] → self_conn w = Some c → self_cur w = Some cu →
  run cur_close w = Returned () (set_cur (Some (Cursor true [])) w).
Proof.
  intros Hf Hconn Hc. unfold run, cur_close. by rewrite Hc, io_proceed, Hconn.
Qed.

Lemma run_conn_commit c w :
  fates w = [] → self_conn w = Some c →
  run conn_commit w =
  Returned () (store (set_in_transaction false c)
                 (set_conn (Some (set_in_transaction false c)) w)).
Proof. intros Hf Hc. unfold run, conn_commit. by rewrite Hc, io_proceed. Qed.

Lemma run_conn_close c w :
  fates w = [] → self_conn w = Some c →
  run conn_close w = Returned () (set_conn None w).
Proof. intros Hf Hc. unfold run, conn_close. by rewrite Hc, io_proceed. Qed.

Lemma run_os_replace src dst f w :
  fates w = [] → files w !! src = Some f →
  run (os_replace src dst) w =
  Returned () (set_files (<[dst := f]> (delete src (files w))) w).
Proof. intros Hf Hs. unfold run, os_replace. by rewrite io_proceed, Hs. Qed.

Lemma count_rows_ok t cols c w :
  session w c → has_columns t cols (working c) →
  ∃ w', run (count_rows t) w =
          Returned (INTEGER (Z.of_nat (length (table_rows t (working c))))) w' ∧
        session w' c ∧ frame (db_path c) w w'.
Proof.
  intros Hs (tb & Htb & _). unfold count_rows.
  destruct (cur_execute_ok (SELECT_COUNT t) c c
              [[INTEGER (Z.of_nat (length (rows tb)))]] w Hs)
    as (w1 & Hrun1 & Hs1 & Hf1 & Hcur1).
  { simpl. by rewrite Htb. }
  rewrite run_bind, Hrun1, run_bind.
  destruct Hs1 as (Hfates & Hconn & _ & Hfile).
  rewrite (run_cur_fetchone _ _ _ _ _ Hfates Hconn Hcur1). simpl.
  eexists. split.
  - unfold table_rows. rewrite Htb. reflexivity.
  - split; [by repeat split; [| |eexists|]|].
    eapply frame_trans; [exact Hf1|]. by split.
Qed.

Lemma publish_ok c dst w :
  session w c → in_transaction c = false →
  ∃ w', run (cur_close;; conn_commit;; conn_close;; os_replace (db_path c) dst) w =
          Returned () w' ∧
        files w' !! dst = Some (working c).
Proof.
  intros (Hf & Hc & [p Hp] & Hfile) Ht. specialize (Hfile Ht).
  rewrite run_bind, (run_cur_close _ _ _ Hf Hc Hp).
  rewrite run_bind, (run_conn_commit c) by done.
  rewrite run_bind, (run_conn_close (set_in_transaction false c))
    by (by rewrite ?store_fates, ?store_conn).
  rewrite (run_os_replace _ _ (working c)).
  - eexists. split; [reflexivity|]. simpl. by rewrite lookup_insert_eq.
  - done.
  - simpl. by rewrite lookup_insert_eq.
Qed.

Lemma run_print args w :
  fates w = [] →
  run (print args) w = Returned () (set_stdout (stdout w ++ [args]) w).
Proof. intros Hf. unfold run, print. by rewrite io_proceed. Qed.

Lemma finish_ok self d w :
  session w (Connection (indexdb_path_part self) d true) → has_schema d →
  ∃ w', run (finish self) w = Returned () w' ∧
        files w' !! indexdb_path self = Some d.
Proof.
  intros Hs (Hp & Hc & Hsum). unfold finish.
  exec_step Hs w1 Hs1 Hf1.
  destruct (count_rows_ok _ _ _ w1 Hs1 Hp) as (w2 & Hrun2 & Hs2 & _).
  rewrite run_bind, Hrun2.
  destruct (count_rows_ok _ _ _ w2 Hs2 Hc) as (w3 & Hrun3 & Hs3 & _).
  rewrite run_bind, Hrun3.
  destruct (count_rows_ok _ _ _ w3 Hs3 Hsum) as (w4 & Hrun4 & Hs4 & _).
  rewrite run_bind, Hrun4.
  rewrite run_bind, run_print by apply Hs4.
  match goal with |- context [run _ ?w0] => set (w5 := w0) end.
  assert (session w5 (Connection (indexdb_path_part self) d false)) as Hs5.
  { destruct Hs4 as (? & ? & ? & ?). by repeat split. }
  clearbody w5.
  destruct (publish_ok _ (indexdb_path self) w5 Hs5 eq_refl) as (w6 & Hrun6 & Hfile).
  exists w6. split; [exact Hrun6|exact Hfile].
Qed.

Lemma rebuild_ok live bundles w :
  fates w = [] → forallb bundle_well_formed bundles = true →
  ∃ w', run (rebuild live bundles) w = Returned () w' ∧
        files w' !! live = Some (bundles_db (hash_order w) bundles indexdb_schema).
Proof.
  intros Hf Hwf. unfold rebuild. rewrite run_init.
  set (self := mkIndexDbProcessor live (with_name live (name live +:+ ".part"))).
  destruct (prepare_ok self (set_cur None (set_conn None w)) Hf)
    as (w1 & Hrun1 & Hs1 & Hf1).
  rewrite run_bind, Hrun1.
  destruct (process_all_ok self bundles _ w1 Hs1) as (w2 & Hrun2 & Hs2 & Hf2).
  { apply has_schema_indexdb_schema. }
  { done. }
  rewrite run_bind, Hrun2.
  destruct Hf1 as [Ho _]. rewrite Ho in Hs2. simpl in Hs2.
  destruct (finish_ok self _ w2 Hs2) as (w3 & Hrun3 & Hfile).
  { apply has_schema_bundles_db, has_schema_indexdb_schema. }
  exists w3. split; [exact Hrun3|exact Hfile].
Qed.

(** C6: two rebuilds from the same sequence of bundles, in two worlds that
    may differ in their files and in the order in which sets are iterated,
    both return and publish the same database at the live path: the same
    tables with the same rows. *)
Theorem rebuild_deterministic live bundles w1 w2 :
  fates w1 = [] → set_order_valid w1 →
  fates w2 = [] → set_order_valid w2 →
  forallb bundle_well_formed bundles = true →
  ∃ w1' w2' db,
    run (rebuild live bundles) w1 = Returned () w1' ∧
    run (rebuild live bundles) w2 = Returned () w2' ∧
    files w1' !! live = Some db ∧
    files w2' !! live = Some db.
Proof.
  intros Hf1 Ho1 Hf2 Ho2 Hwf.
  destruct (rebuild_ok live bundles w1 Hf1 Hwf) as (w1' & Hrun1 & Hfile1).
  destruct (rebuild_ok live bundles w2 Hf2 Hwf) as (w2' & Hrun2 & Hfile2).
  exists w1', w2', (bundles_db (hash_order w1) bundles indexdb_schema).
  do 3 (split; [done|]).
  by rewrite (bundles_db_order (hash_order w1) (hash_order w2)).
Qed.

(** * Further properties of the updater *)

(** ** One statement, with all it changes *)

Lemma cur_execute_effect s c c' rs w :
  session w c → sql_exec s c = Ok (c', rs) →
  ∃ w', run (cur_execute s) w = Returned () w' ∧ session w' c' ∧
        self_cur w' = Some (Cursor false rs) ∧
        files w' = (if in_transaction c' then files w
                    else <[db_path c := working c']> (files w)) ∧
        dirs w' = dirs w ∧ stdout w' = stdout w ∧ hash_order w' = hash_order w.
Proof.
  intros Hs Hexec.
  destruct (cur_execute_ok s c c' rs w Hs Hexec) as (w' & Hrun & Hs' & _ & Hcur).
  exists w'. split; [exact Hrun|]. split; [exact Hs'|]. split; [exact Hcur|].
  destruct Hs as (Hf & Hc & [p Hp] & _).
  unfold run, cur_execute in Hrun. rewrite Hp, io_proceed in Hrun by done.
  rewrite Hc in Hrun. simpl in Hrun. rewrite Hexec in Hrun. injection Hrun as <-.
  rewrite <- (sql_exec_path _ _ _ _ Hexec).
  unfold store. by destruct (in_transaction c').
Qed.

Lemma cur_execute_no_cursor s w :
  self_cur w = None → run (cur_execute s) w = Raised AttributeError w.
Proof. intros H. unfold run, cur_execute. by rewrite H. Qed.

Lemma cur_execute_closed s cu w :
  fates w = [] → self_cur w = Some cu → self_conn w = None →
  run (cur_execute s) w = Raised (ValueError "Connection closed") w.
Proof.
  intros Hf Hcur Hconn. unfold run, cur_execute.
  by rewrite Hcur, io_proceed, Hconn.
Qed.

(** ** [count_rows] *)

(** X1: on a session, for each of the three tables of the index,
    [count_rows] returns the number of rows of the table and leaves the
    database and the output as they are. *)
Theorem count_rows_counts t c w :
  session w c → has_schema (working c) →
  t ∈ ["products"; "changelog"; "changelog_summary"] →
  ∃ w',
    run (count_rows t) w =
      Returned (INTEGER (Z.of_nat (length (table_rows t (working c))))) w' ∧
    session_db w' = session_db w ∧ stdout w' = stdout w.
Proof.
  intros Hs (Hp & Hc & Hsum) Ht.
  assert (∃ tb, tables (working c) !! t = Some tb) as [tb Htb].
  { repeat (apply elem_of_cons in Ht as [->|Ht]);
      [destruct Hp as (tb & ? & _)|destruct Hc as (tb & ? & _)
      |destruct Hsum as (tb & ? & _)|by apply elem_of_nil in Ht]; by exists tb. }
  unfold count_rows.
  destruct (cur_execute_effect (SELECT_COUNT t) c c
              [[INTEGER (Z.of_nat (length (rows tb)))]] w Hs)
    as (w1 & Hrun1 & Hs1 & Hcur1 & _ & _ & Hout & _).
  { simpl. by rewrite Htb. }
  rewrite run_bind, Hrun1, run_bind.
  rewrite (run_cur_fetchone _ _ _ _ _ (proj1 Hs1) (proj1 (proj2 Hs1)) Hcur1). simpl.
  eexists. split; [unfold table_rows; rewrite Htb; reflexivity|]. simpl.
  rewrite (session_db_eq _ _ Hs). split; [|done].
  unfold session_db. simpl. by rewrite (proj1 (proj2 Hs1)).
Qed.

(** ** A processor that was not prepared *)

(** X4: before [prepare], when the processor holds no cursor, [process]
    of a bundle with a product and [finish] raise [AttributeError] and
    change nothing. *)
Theorem unprepared_processor_raises self data prod w :
  self_cur w = None → product data = Some prod →
  run (process self data) w = Raised AttributeError w ∧
  run (finish self) w = Raised AttributeError w.
Proof.
  intros Hcur Hprod. split.
  - destruct data as [p [cl|]]; simpl in Hprod; subst p.
    + rewrite process_both, run_bind. unfold index_product.
      by rewrite cur_execute_no_cursor.
    + rewrite process_product_only, run_bind. unfold index_product.
      by rewrite cur_execute_no_cursor.
  - unfold finish. rewrite run_bind. by rewrite cur_execute_no_cursor.
Qed.

(** ** Inside the transaction nothing reaches a file *)

Lemma buffered_ret {A} (a : A) : buffered (mret a).
Proof. by intros w Hw. Qed.

Lemma buffered_lift {A} (r : result A) : buffered (lift r).
Proof. destruct r; by intros w Hw. Qed.

Lemma buffered_gets {A} (f : world → A) : buffered (py_gets f).
Proof. by intros w Hw. Qed.

Lemma buffered_bind {A B} (m : py A) (k : A → py B) :
  buffered m → (∀ a, buffered (k a)) → buffered (m ≫= k).
Proof.
  intros Hm Hk w Hw. rewrite run_bind.
  destruct (Hm w Hw) as [Ht1 Hf1].
  destruct (run m w) as [a w1|e w1]; simpl in *; [|done].
  destruct (Hk a w1 Ht1) as [Ht2 Hf2]. split; [done|congruence].
Qed.

Lemma buffered_insert t params : buffered (cur_execute (INSERT_INTO t params)).
Proof.
  intros w Hw. unfold run, cur_execute.
  destruct (self_cur w) as [cu|]; [|done].
  unfold io. destruct (fates w) as [|[|e] rest]; [| |done].
  - destruct (self_conn w) as [c|] eqn:Hc; [|done].
    pose proof (Hw c Hc) as Ht.
    destruct (closed cu); [done|]. simpl.
    destruct (tables (working c) !! t); [|done].
    case_bool_decide; [|done]. simpl.
    unfold store. simpl. rewrite Ht. simpl. split; [|done].
    intros c0 [= <-]. done.
  - simpl. destruct (self_conn w) as [c|] eqn:Hc; [|done].
    pose proof (Hw c Hc) as Ht.
    destruct (closed cu); [done|]. simpl.
    destruct (tables (working c) !! t); [|done].
    case_bool_decide; [|done]. simpl.
    unfold store. simpl. rewrite Ht. simpl. split; [|done].
    intros c0 [= <-]. done.
Qed.

Lemma buffered_index_changelog_records prod cl m :
  buffered (index_changelog_records prod cl m).
Proof.
  revert m. induction cl as [|r cl IH]; intros m; simpl.
  - apply buffered_ret.
  - apply buffered_bind; [apply buffered_lift|intros ic].
    apply buffered_bind; [apply buffered_insert|intros _]. apply IH.
Qed.

Lemma buffered_index_changelog_summaries prod items :
  buffered (index_changelog_summaries prod items).
Proof.
  induction items as [|item items IH]; simpl.
  - apply buffered_ret.
  - apply buffered_bind; [apply buffered_gets|intros order].
    apply buffered_bind; [apply buffered_insert|intros _]. apply IH.
Qed.

Lemma buffered_process self data : buffered (process self data).
Proof.
  unfold process. destruct (product data) as [prod|]; [|apply buffered_ret].
  apply buffered_bind; [apply buffered_insert|intros _].
  destruct (changelog data) as [cl|]; [|apply buffered_ret].
  unfold index_changelog.
  apply buffered_bind; [apply buffered_index_changelog_records|intros m].
  apply buffered_index_changelog_summaries.
Qed.

(** X9: while the connection is inside a transaction, [process] changes
    no file at all, whatever the bundle and whether it returns, fails or is
    interrupted; when it returns, the connection is still inside the
    transaction. *)
Theorem process_writes_no_file self data w :
  in_open_transaction w →
  files (final_world (run (process self data) w)) = files w ∧
  ∀ w', run (process self data) w = Returned () w' → in_open_transaction w'.
Proof.
  intros Hw. destruct (buffered_process self data w Hw) as [Ht Hf].
  split; [exact Hf|]. intros w' Hrun. by rewrite Hrun in Ht.
Qed.

(** ** The columns of the payload *)

Lemma idx_change_of_property prod r pr :
  ChangeRecord.category r = "property" →
  ChangeRecord.property_record r = Some pr →
  ∃ ic, idx_change_of prod r = Ok ic ∧
        IndexChange.dl_type ic = None ∧
        IndexChange.bonus_type ic = None ∧
        IndexChange.property_name ic = Some (PropertyRecord.property_name pr).
Proof.
  intros Hc Hp. unfold idx_change_of. rewrite Hc, Hp. simpl.
  eexists. by split.
Qed.

(** X11: the row of a record of category [property] has the property
    name in [property_name] and no [dl_type] and no [bonus_type]; the row of
    a record of category [download] has the download type in [dl_type] and
    no [property_name], even when the record carries a property payload as
    well. *)
Theorem payload_columns prod cl w :
  accepting w → forallb carries_payload cl = true →
  ∃ w' rows,
    run (index_changelog prod cl) w = Returned () w' ∧
    table_rows "changelog" (session_db w') =
      table_rows "changelog" (session_db w) ++ rows ∧
    ∀ (i : nat) r,
      cl !! i = Some r →
      ∃ row,
        rows !! i = Some row ∧
        (∀ pr, ChangeRecord.category r = "property" →
               ChangeRecord.property_record r = Some pr →
               field changelog_columns "property_name" row =
                 Some (TEXT (PropertyRecord.property_name pr)) ∧
               field changelog_columns "dl_type" row = Some NULL ∧
               field changelog_columns "bonus_type" row = Some NULL) ∧
        (∀ dr, ChangeRecord.category r = "download" →
               ChangeRecord.download_record r = Some dr →
               field changelog_columns "dl_type" row =
                 Some (TEXT (DownloadRecord.dl_type dr)) ∧
               field changelog_columns "property_name" row = Some NULL).
Proof.
  intros Hacc Hwf.
  destruct (index_changelog_run prod cl w Hacc Hwf)
    as (w' & ics & Hrun & _ & _ & Hics & _ & Hrows & _).
  exists w', (changelog_values <$> ics). split; [done|]. split; [done|].
  intros i r Hi.
  destruct (Forall2_lookup_l _ _ _ _ _ Hics Hi) as (ic & Hic & Hr).
  exists (changelog_values ic). split.
  { by rewrite list_lookup_fmap, Hic. }
  simpl in Hr. split.
  - intros pr Hcat Hpr.
    destruct (idx_change_of_property prod r pr Hcat Hpr) as (ic' & Hr' & Hd & Hb & Hn).
    rewrite Hr in Hr'. simplify_eq.
    unfold changelog_values. simpl. by rewrite Hd, Hb, Hn.
  - intros dr Hcat Hdr.
    destruct (idx_change_of_download prod r dr Hcat Hdr) as (ic' & Hr' & Hd & _ & Hn).
    rewrite Hr in Hr'. simplify_eq.
    unfold changelog_values. simpl. by rewrite Hd, Hn.
Qed.

(** ** A record without the payload of its category *)

Lemma idx_change_of_no_payload prod r :
  carries_payload r = false → idx_change_of prod r = Err AttributeError.
Proof.
  unfold carries_payload, idx_change_of.
  destruct (String.eqb _ "download").
  - intros H%bool_decide_eq_false.
    destruct (ChangeRecord.download_record r); [|done].
    exfalso. apply H. by eexists.
  - destruct (String.eqb _ "property"); [|done].
    intros H%bool_decide_eq_false.
    destruct (ChangeRecord.property_record r); [|done].
    exfalso. apply H. by eexists.
Qed.

Lemma index_changelog_records_raise prod pre r post ics e m c w :
  session w c → has_schema (working c) →
  idx_changes_of prod pre = Ok ics → idx_change_of prod r = Err e →
  ∃ w', run (index_changelog_records prod (pre ++ r :: post) m) w = Raised e w' ∧
        session w' (set_working
                      (append_rows "changelog" (changelog_values <$> ics) (working c)) c).
Proof.
  revert ics m c w. induction pre as [|r0 pre IH]; intros ics m c w Hs Hsch Hics Hr.
  - simpl in Hics. simplify_eq. exists w. split.
    + cbn [app index_changelog_records]. rewrite run_bind. unfold lift at 1.
      by rewrite Hr.
    + simpl. by rewrite append_rows_nil, set_working_working.
  - simpl in Hics.
    destruct (idx_change_of prod r0) as [ic|] eqn:Hr0; [|done].
    destruct (idx_changes_of prod pre) as [ics'|] eqn:Hpre; [|done].
    simplify_eq.
    destruct (insert_ok "changelog" changelog_columns (changelog_values ic) c w)
      as (w1 & Hrun1 & Hs1 & _); [done|apply Hsch|done|].
    destruct (IH ics'
                (defaultdict_add (ChangeRecord.timestamp r0) (ChangeRecord.category r0) m)
                _ w1 Hs1) as (w2 & Hrun2 & Hs2).
    { simpl. by apply has_schema_append. }
    { done. }
    { done. }
    exists w2. split.
    + cbn [app index_changelog_records]. rewrite run_bind. unfold lift at 1.
      rewrite Hr0, run_ret, run_bind, Hrun1. exact Hrun2.
    + simpl in Hs2. rewrite append_rows_app in Hs2. exact Hs2.
Qed.

(** X7: when a record of a changelog lacks the payload of its category,
    [index_changelog] raises [AttributeError] at that record: the rows of
    the records before it have been inserted, those of the records after it
    have not, and no summary row has been written. *)
Theorem index_changelog_stops_at_missing_payload prod pre r post w :
  accepting w → forallb carries_payload pre = true → carries_payload r = false →
  ∃ w' rows,
    run (index_changelog prod (pre ++ r :: post)) w = Raised AttributeError w' ∧
    table_rows "changelog" (session_db w') =
      table_rows "changelog" (session_db w) ++ rows ∧
    length rows = length pre ∧
    table_rows "changelog_summary" (session_db w') =
      table_rows "changelog_summary" (session_db w).
Proof.
  intros (c & Hs & Hsch) Hpre Hr.
  destruct (idx_changes_of_ok prod pre Hpre) as [ics Hics].
  destruct (index_changelog_records_raise prod pre r post ics AttributeError [] c w
              Hs Hsch Hics (idx_change_of_no_payload prod r Hr)) as (w' & Hrun & Hs').
  exists w', (changelog_values <$> ics). split; [|split; [|split]].
  - unfold index_changelog. by rewrite run_bind, Hrun.
  - rewrite (session_db_eq _ _ Hs), (session_db_eq _ _ Hs'). simpl.
    apply table_rows_append_eq. eapply has_columns_is_Some, Hsch.
  - rewrite length_fmap. symmetry.
    eapply Forall2_length, idx_changes_of_Forall2, Hics.
  - rewrite (session_db_eq _ _ Hs), (session_db_eq _ _ Hs'). simpl.
    by rewrite table_rows_append_ne.
Qed.

(** ** The order of the summary rows *)

Lemma first_occurrences_ext seen1 seen2 l :
  (∀ x, x ∈ seen1 ↔ x ∈ seen2) →
  first_occurrences seen1 l = first_occurrences seen2 l.
Proof.
  pure_fact. revert seen1 seen2. induction l as [|x l IH]; intros s1 s2 H; simpl; [done|].
  destruct (decide (x ∈ s1)) as [H1|H1], (decide (x ∈ s2)) as [H2|H2].
  - by apply IH.
  - by apply H in H1.
  - by apply H in H2.
  - f_equal. apply IH. intros y. rewrite !elem_of_cons. by rewrite H.
Qed.

Lemma first_occurrences_length seen l :
  (length (first_occurrences seen l) ≤ length l)%nat.
Proof.
  revert seen. induction l as [|x l IH]; intros seen; simpl; [done|].
  destruct (decide (x ∈ seen)).
  - specialize (IH seen). lia.
  - simpl. specialize (IH (x :: seen)). lia.
Qed.

Lemma defaultdict_add_keys_eq k c m :
  (defaultdict_add k c m).*1 =
  if decide (k ∈ m.*1) then m.*1 else m.*1 ++ [k].
Proof.
  pure_fact. induction m as [|[k' s] m IH].
  - cbn [defaultdict_add fmap list_fmap fst].
    destruct (decide (k ∈ [])) as [H|H]; [by apply elem_of_nil in H|done].
  - cbn [defaultdict_add]. destruct (decide (k' = k)) as [->|Hne].
    + cbn [fmap list_fmap fst].
      destruct (decide (k ∈ k :: m.*1)) as [H|H]; [done|].
      exfalso. apply H. by left.
    + cbn [fmap list_fmap fst] in *. rewrite IH.
      destruct (decide (k ∈ m.*1)) as [Hin|Hin];
        destruct (decide (k ∈ k' :: m.*1)) as [H|H]; try done.
      * exfalso. apply H. by right.
      * apply elem_of_cons in H as [?|?]; done.
Qed.

Lemma summaries_keys_order cl m :
  (foldl (λ m r, defaultdict_add (ChangeRecord.timestamp r)
                                 (ChangeRecord.category r) m) m cl).*1 =
  m.*1 ++ first_occurrences m.*1 (ChangeRecord.timestamp <$> cl).
Proof.
  pure_fact. revert m. induction cl as [|r cl IH]; intros m; simpl.
  - by rewrite app_nil_r.
  - rewrite IH, defaultdict_add_keys_eq.
    destruct (decide (ChangeRecord.timestamp r ∈ m.*1)) as [Hin|Hin]; [done|].
    rewrite <- app_assoc. simpl. do 2 f_equal.
    apply first_occurrences_ext. intros x. set_solver.
Qed.

(** X8: the summary rows of a changelog are written in the order in which
    their timestamps first occur among the records, one row per timestamp;
    there are never more summary rows than records. *)
Theorem summary_rows_in_order_of_first_occurrence prod cl w :
  accepting w → forallb carries_payload cl = true →
  ∃ w' srows,
    run (index_changelog prod cl) w = Returned () w' ∧
    table_rows "changelog_summary" (session_db w') =
      table_rows "changelog_summary" (session_db w) ++ srows ∧
    field changelog_summary_columns "timestamp" <$> srows =
      (λ ts, Some (REAL (posix_timestamp ts)))
      <$> first_occurrences [] (ChangeRecord.timestamp <$> cl) ∧
    (length srows ≤ length cl)%nat.
Proof.
  intros Hacc Hwf.
  destruct (index_changelog_run prod cl w Hacc Hwf)
    as (w' & ics & Hrun & _ & _ & _ & _ & _ & Hsrows).
  eexists w', _. split; [done|]. split; [done|].
  assert ((summaries_of cl).*1 =
          first_occurrences [] (ChangeRecord.timestamp <$> cl)) as Hkeys.
  { unfold summaries_of. by rewrite summaries_keys_order. }
  split.
  - rewrite <- Hkeys, <- !list_fmap_compose.
    apply list_fmap_ext. by intros i [ts s] _.
  - rewrite length_fmap, <- (length_fmap fst), Hkeys.
    etrans; [apply first_occurrences_length|]. by rewrite length_fmap.
Qed.

(** ** What the calls leave alone *)

Lemma preserves_ret {A B} (f : world → B) (a : A) : preserves f (mret a).
Proof. by intros w. Qed.

Lemma preserves_lift {A B} (f : world → B) (r : result A) : preserves f (lift r).
Proof. destruct r; by intros w. Qed.

Lemma preserves_gets {B C} (f : world → B) (g : world → C) :
  preserves f (py_gets g).
Proof. by intros w. Qed.

Lemma preserves_bind {A B C} (f : world → C) (m : py A) (k : A → py B) :
  preserves f m → (∀ a, preserves f (k a)) → preserves f (m ≫= k).
Proof.
  intros Hm Hk w. rewrite run_bind. specialize (Hm w).
  destruct (run m w) as [a w1|e w1]; simpl in *; [|done].
  by rewrite Hk.
Qed.

Lemma store_stdout c w : stdout (store c w) = stdout w.
Proof. unfold store. by destruct (in_transaction c). Qed.

Lemma store_dirs c w : dirs (store c w) = dirs w.
Proof. unfold store. by destruct (in_transaction c). Qed.

Lemma preserves_stdout_cur_execute s : preserves stdout (cur_execute s).
Proof.
  intros w. unfold run, cur_execute, io.
  repeat case_match; simpl; rewrite ?store_stdout; done.
Qed.

Lemma preserves_dirs_cur_execute s : preserves dirs (cur_execute s).
Proof.
  intros w. unfold run, cur_execute, io.
  repeat case_match; simpl; rewrite ?store_dirs; done.
Qed.

Lemma preserves_stdout_init_db : preserves stdout init_db.
Proof.
  unfold init_db.
  repeat (apply preserves_bind; [apply preserves_stdout_cur_execute|intros _]).
  apply preserves_stdout_cur_execute.
Qed.

Lemma preserves_dirs_init_db : preserves dirs init_db.
Proof.
  unfold init_db.
  repeat (apply preserves_bind; [apply preserves_dirs_cur_execute|intros _]).
  apply preserves_dirs_cur_execute.
Qed.

Lemma preserves_stdout_process self data : preserves stdout (process self data).
Proof.
  unfold process. destruct (product data) as [prod|]; [|apply preserves_ret].
  apply preserves_bind; [apply preserves_stdout_cur_execute|intros _].
  destruct (changelog data) as [cl|]; [|apply preserves_ret].
  unfold index_changelog. apply preserves_bind.
  - generalize (@nil (datetime * gset string)).
    induction cl as [|r cl IH]; intros m; simpl; [apply preserves_ret|].
    apply preserves_bind; [apply preserves_lift|intros ic].
    apply preserves_bind; [apply preserves_stdout_cur_execute|intros _]. apply IH.
  - intros items. induction items as [|item items IH]; simpl; [apply preserves_ret|].
    apply preserves_bind; [apply preserves_gets|intros order].
    apply preserves_bind; [apply preserves_stdout_cur_execute|intros _]. apply IH.
Qed.

Lemma preserves_stdout_process_all self bundles :
  preserves stdout (process_all self bundles).
Proof.
  induction bundles as [|b bundles IH]; simpl; [apply preserves_ret|].
  apply preserves_bind; [apply preserves_stdout_process|intros _]. apply IH.
Qed.

(** ** [prepare] *)

Lemma prepare_effect self w :
  fates w = [] →
  ∃ w', run (prepare self) w = Returned () w' ∧
        session w' (Connection (indexdb_path_part self) indexdb_schema true) ∧
        files w' !! indexdb_path_part self = Some indexdb_schema ∧
        (∀ q, q ≠ indexdb_path_part self → files w' !! q = files w !! q) ∧
        dirs w' = {[parent (indexdb_path self)]} ∪ dirs w ∧
        stdout w' = stdout w ∧ hash_order w' = hash_order w.
Proof.
  intros Hf. unfold prepare.
  rewrite run_bind, run_path_mkdir by done.
  rewrite run_bind, run_path_unlink by done.
  rewrite run_bind, run_aiosqlite_connect by done.
  rewrite run_bind. erewrite run_conn_cursor; [|done|reflexivity].
  cbn [files set_files set_dirs]. rewrite lookup_delete_eq. cbn [default].
  match goal with |- context [run _ ?w0] => set (w4 := w0) end.
  assert (session w4 (Connection (indexdb_path_part self) empty_database false)) as Hs4.
  { repeat split; [done|by eexists|]. intros _. simpl. by rewrite lookup_insert_eq. }
  assert (∀ q, q ≠ indexdb_path_part self → files w4 !! q = files w !! q) as Hq4.
  { intros q Hq. simpl. by rewrite lookup_insert_ne, lookup_delete_ne. }
  assert (dirs w4 = {[parent (indexdb_path self)]} ∪ dirs w) as Hd4 by done.
  assert (stdout w4 = stdout w) as Ho4 by done.
  assert (hash_order w4 = hash_order w) as Hh4 by done.
  clearbody w4.
  destruct (init_db_fresh w4 _ Hs4 eq_refl) as (w5 & Hrun5 & Hs5 & Hf5).
  pose proof (preserves_stdout_init_db w4) as Ho5.
  pose proof (preserves_dirs_init_db w4) as Hd5.
  rewrite Hrun5 in Ho5, Hd5. simpl in Ho5, Hd5.
  rewrite run_bind, Hrun5.
  assert (files w5 !! indexdb_path_part self = Some indexdb_schema) as Hp5.
  { by apply Hs5. }
  rewrite run_bind.
  edestruct (cur_execute_effect BEGIN_TRANSACTION)
    as (w6 & Hrun6 & Hs6 & _ & Hfi6 & Hd6 & Ho6 & Hh6);
    [exact Hs5|vm_compute; reflexivity|]. rewrite Hrun6.
  rewrite run_bind.
  edestruct (cur_execute_effect (DELETE_FROM "products"))
    as (w7 & Hrun7 & Hs7 & _ & Hfi7 & Hd7 & Ho7 & Hh7);
    [exact Hs6|vm_compute; reflexivity|]. rewrite Hrun7.
  rewrite run_bind.
  edestruct (cur_execute_effect (DELETE_FROM "changelog"))
    as (w8 & Hrun8 & Hs8 & _ & Hfi8 & Hd8 & Ho8 & Hh8);
    [exact Hs7|vm_compute; reflexivity|]. rewrite Hrun8.
  edestruct (cur_execute_effect (DELETE_FROM "changelog_summary"))
    as (w9 & Hrun9 & Hs9 & _ & Hfi9 & Hd9 & Ho9 & Hh9);
    [exact Hs8|vm_compute; reflexivity|].
  simpl in Hfi6, Hfi7, Hfi8, Hfi9.
  exists w9. split; [exact Hrun9|]. split; [exact Hs9|].
  destruct Hf5 as [Hh5 Hq5]. simpl in Hq5.
  rewrite Hfi9, Hfi8, Hfi7, Hfi6.
  split; [exact Hp5|]. split.
  { intros q Hq. by rewrite Hq5, Hq4. }
  split; [by rewrite Hd9, Hd8, Hd7, Hd6, Hd5|].
  split; congruence.
Qed.

(** X2: without faults, and when the directory of the index exists,
    [prepare] returns whatever the files hold and whatever handles the
    processor held: the processor then has an open cursor on a connection
    to the staging path, inside a transaction, on a database with the
    schema and no row; the staging file holds the empty schema, and no
    other file and no directory has changed. *)
Theorem prepare_starts_afresh self w :
  fates w = [] → parent (indexdb_path self) ∈ dirs w →
  ∃ w',
    run (prepare self) w = Returned () w' ∧
    accepting w' ∧ in_open_transaction w' ∧
    session_db w' = indexdb_schema ∧
    (∀ t, table_rows t (session_db w') = []) ∧
    files w' !! indexdb_path_part self = Some indexdb_schema ∧
    (∀ q, q ≠ indexdb_path_part self → files w' !! q = files w !! q) ∧
    dirs w' = dirs w.
Proof.
  intros Hf Hdir.
  destruct (prepare_effect self w Hf)
    as (w' & Hrun & Hs & Hp & Hq & Hd & _ & _).
  exists w'. split; [exact Hrun|].
  assert (session_db w' = indexdb_schema) as Hdb by by rewrite (session_db_eq _ _ Hs).
  split; [|split; [|split; [exact Hdb|split; [|split; [exact Hp|split; [exact Hq|]]]]]].
  - exists (Connection (indexdb_path_part self) indexdb_schema true).
    split; [exact Hs|apply has_schema_indexdb_schema].
  - intros c Hc. destruct Hs as (_ & Hc' & _). rewrite Hc' in Hc. by simplify_eq.
  - intros t. rewrite Hdb. unfold table_rows, indexdb_schema. simpl.
    destruct (decide (t = "changelog_summary")) as [->|H1]; [done|].
    rewrite lookup_insert_ne by done.
    destruct (decide (t = "changelog")) as [->|H2]; [done|].
    rewrite lookup_insert_ne by done.
    destruct (decide (t = "products")) as [->|H3]; [done|].
    by rewrite lookup_insert_ne.
  - rewrite Hd. apply subseteq_union_1_L. by apply singleton_subseteq_l.
Qed.

(** ** [finish] *)

Lemma count_rows_effect t cols c w :
  session w c → in_transaction c = false → has_columns t cols (working c) →
  ∃ w', run (count_rows t) w =
          Returned (INTEGER (Z.of_nat (length (table_rows t (working c))))) w' ∧
        session w' c ∧ files w' = files w ∧ stdout w' = stdout w.
Proof.
  intros Hs Ht (tb & Htb & _). unfold count_rows.
  destruct (cur_execute_effect (SELECT_COUNT t) c c
              [[INTEGER (Z.of_nat (length (rows tb)))]] w Hs)
    as (w1 & Hrun1 & Hs1 & Hcur1 & Hfi1 & _ & Ho1 & _).
  { simpl. by rewrite Htb. }
  rewrite run_bind, Hrun1, run_bind.
  rewrite (run_cur_fetchone _ _ _ _ _ (proj1 Hs1) (proj1 (proj2 Hs1)) Hcur1). simpl.
  eexists. split; [unfold table_rows; rewrite Htb; reflexivity|].
  destruct Hs1 as (Hf1 & Hc1 & _ & Hfile1).
  split; [by repeat split; [| |eexists|]|]. simpl. split; [|done].
  rewrite Hfi1, Ht. apply insert_id. destruct Hs as (_ & _ & _ & Hfile). by apply Hfile.
Qed.

Lemma publish_effect c dst w :
  session w c → in_transaction c = false →
  ∃ w', run (cur_close;; conn_commit;; conn_close;; os_replace (db_path c) dst) w =
          Returned () w' ∧
        files w' = <[dst := working c]> (delete (db_path c) (files w)) ∧
        self_conn w' = None ∧ self_cur w' = Some (Cursor true []) ∧
        fates w' = [] ∧ stdout w' = stdout w.
Proof.
  intros (Hf & Hc & [p Hp] & Hfile) Ht. specialize (Hfile Ht).
  rewrite run_bind, (run_cur_close _ _ _ Hf Hc Hp).
  rewrite run_bind, (run_conn_commit c) by done.
  rewrite run_bind, (run_conn_close (set_in_transaction false c))
    by (by rewrite ?store_fates, ?store_conn).
  rewrite (run_os_replace _ _ (working c)).
  - eexists. split; [reflexivity|]. simpl.
    rewrite (insert_id (files w) (db_path c) (working c)) by done. done.
  - done.
  - simpl. by rewrite lookup_insert_eq.
Qed.

Lemma finish_effect self d w :
  session w (Connection (indexdb_path_part self) d true) → has_schema d →
  ∃ w', run (finish self) w = Returned () w' ∧
        files w' = <[indexdb_path self := d]> (delete (indexdb_path_part self) (files w)) ∧
        self_conn w' = None ∧ self_cur w' = Some (Cursor true []) ∧
        fates w' = [] ∧ stdout w' = stdout w ++ [count_line d].
Proof.
  intros Hs (Hp & Hc & Hsum). unfold finish.
  rewrite run_bind.
  edestruct (cur_execute_effect END_TRANSACTION)
    as (w1 & Hrun1 & Hs1 & _ & Hfi1 & _ & Ho1 & _);
    [exact Hs|vm_compute; reflexivity|]. rewrite Hrun1. simpl in Hfi1.
  destruct (count_rows_effect _ _ _ w1 Hs1 eq_refl Hp) as (w2 & Hrun2 & Hs2 & Hfi2 & Ho2).
  rewrite run_bind, Hrun2.
  destruct (count_rows_effect _ _ _ w2 Hs2 eq_refl Hc) as (w3 & Hrun3 & Hs3 & Hfi3 & Ho3).
  rewrite run_bind, Hrun3.
  destruct (count_rows_effect _ _ _ w3 Hs3 eq_refl Hsum) as (w4 & Hrun4 & Hs4 & Hfi4 & Ho4).
  rewrite run_bind, Hrun4.
  rewrite run_bind, run_print by apply Hs4.
  match goal with |- context [run _ ?w0] => set (w5 := w0) end.
  assert (session w5 (Connection (indexdb_path_part self) d false)) as Hs5.
  { destruct Hs4 as (? & ? & ? & ?). by repeat split. }
  assert (files w5 = files w4) as Hfi5 by done.
  assert (stdout w5 = stdout w4 ++ [count_line d]) as Ho5 by done.
  clearbody w5.
  destruct (publish_effect _ (indexdb_path self) w5 Hs5 eq_refl)
    as (w6 & Hrun6 & Hfi6 & Hconn6 & Hcur6 & Hf6 & Ho6).
  exists w6. split; [exact Hrun6|]. simpl in Hfi6.
  split.
  { rewrite Hfi6, Hfi5, Hfi4, Hfi3, Hfi2, Hfi1.
    by rewrite delete_insert_eq. }
  do 3 (split; [done|]). congruence.
Qed.

(** X3: between [prepare] and [finish], without faults, [finish] returns:
    the live path then holds the database of the connection, the staging
    file is gone, every other file is as it was, the connection is closed,
    and one line has been printed with the numbers of rows of the three
    tables. *)
Theorem finish_publishes self d w :
  session w (Connection (indexdb_path_part self) d true) → has_schema d →
  indexdb_path_part self ≠ indexdb_path self →
  ∃ w',
    run (finish self) w = Returned () w' ∧
    files w' !! indexdb_path self = Some d ∧
    files w' !! indexdb_path_part self = None ∧
    (∀ q, q ≠ indexdb_path self → q ≠ indexdb_path_part self →
          files w' !! q = files w !! q) ∧
    self_conn w' = None ∧
    stdout w' = stdout w ++
      [[INTEGER (Z.of_nat (length (table_rows "products" d)));
        INTEGER (Z.of_nat (length (table_rows "changelog" d)));
        INTEGER (Z.of_nat (length (table_rows "changelog_summary" d)))]].
Proof.
  intros Hs Hsch Hne.
  destruct (finish_effect self d w Hs Hsch) as (w' & Hrun & Hfi & Hconn & _ & _ & Ho).
  exists w'. split; [exact Hrun|]. rewrite Hfi.
  split; [by rewrite lookup_insert_eq|].
  split; [by rewrite lookup_insert_ne, lookup_delete_eq|].
  split; [|by split].
  intros q Hq1 Hq2. by rewrite lookup_insert_ne, lookup_delete_ne.
Qed.

(** X10: once [finish] has returned the processor is spent: its connection
    is closed, so that a further [finish], and [process] of any bundle with
    a product, raise [ValueError] and change nothing. *)
Theorem finished_processor_is_spent self d w :
  session w (Connection (indexdb_path_part self) d true) → has_schema d →
  ∃ w',
    run (finish self) w = Returned () w' ∧
    run (finish self) w' = Raised (ValueError "Connection closed") w' ∧
    ∀ data prod, product data = Some prod →
      run (process self data) w' = Raised (ValueError "Connection closed") w'.
Proof.
  intros Hs Hsch.
  destruct (finish_effect self d w Hs Hsch) as (w' & Hrun & _ & Hconn & Hcur & Hf & _).
  exists w'. split; [exact Hrun|]. split.
  - unfold finish. rewrite run_bind. by erewrite cur_execute_closed.
  - intros [p [cl|]] prod Hprod; simpl in Hprod; subst p.
    + rewrite process_both, run_bind. unfold index_product.
      by erewrite cur_execute_closed.
    + rewrite process_product_only, run_bind. unfold index_product.
      by erewrite cur_execute_closed.
Qed.

(** ** What a rebuild publishes *)

Lemma table_rows_bundle_db order b d :
  has_schema d →
  table_rows "products" (bundle_db order b d) =
    table_rows "products" d ++ bundle_product_rows b ∧
  table_rows "changelog" (bundle_db order b d) =
    table_rows "changelog" d ++ bundle_changelog_rows b ∧
  table_rows "changelog_summary" (bundle_db order b d) =
    table_rows "changelog_summary" d ++ bundle_summary_rows order b.
Proof.
  intros (Hp & Hc & Hs).
  unfold bundle_db, bundle_product_rows, bundle_changelog_rows, bundle_summary_rows.
  destruct (product b) as [prod|]; [|by rewrite !app_nil_r].
  destruct (changelog b) as [cl|].
  - split; [|split].
    + rewrite !table_rows_append_ne by done.
      apply table_rows_append_eq. eapply has_columns_is_Some, Hp.
    + rewrite table_rows_append_ne by done.
      rewrite table_rows_append_eq
        by (eapply has_columns_is_Some, has_columns_append, Hc).
      by rewrite table_rows_append_ne.
    + rewrite table_rows_append_eq
        by (eapply has_columns_is_Some; do 2 apply has_columns_append; exact Hs).
      by rewrite !table_rows_append_ne.
  - rewrite !app_nil_r. split; [|split].
    + apply table_rows_append_eq. eapply has_columns_is_Some, Hp.
    + by rewrite table_rows_append_ne.
    + by rewrite table_rows_append_ne.
Qed.

Lemma table_rows_bundles_db order bundles d :
  has_schema d →
  table_rows "products" (bundles_db order bundles d) =
    table_rows "products" d ++ (bundles ≫= bundle_product_rows) ∧
  table_rows "changelog" (bundles_db order bundles d) =
    table_rows "changelog" d ++ (bundles ≫= bundle_changelog_rows) ∧
  table_rows "changelog_summary" (bundles_db order bundles d) =
    table_rows "changelog_summary" d ++ (bundles ≫= bundle_summary_rows order).
Proof.
  unfold bundles_db. revert d.
  induction bundles as [|b bundles IH]; intros d Hd.
  - simpl. by rewrite !app_nil_r.
  - cbn [foldl]. destruct (IH _ (has_schema_bundle_db order b d Hd)) as (-> & -> & ->).
    destruct (table_rows_bundle_db order b d Hd) as (-> & -> & ->).
    rewrite !bind_cons, <- !app_assoc. done.
Qed.

Lemma rebuild_effect live bundles w :
  fates w = [] → forallb bundle_well_formed bundles = true →
  ∃ w' db,
    run (rebuild live bundles) w = Returned () w' ∧
    db = bundles_db (hash_order w) bundles indexdb_schema ∧
    files w' !! live = Some db ∧
    stdout w' = stdout w ++ [count_line db].
Proof.
  intros Hf Hwf. unfold rebuild. rewrite run_init.
  set (self := mkIndexDbProcessor live (with_name live (name live +:+ ".part"))).
  destruct (prepare_effect self (set_cur None (set_conn None w)) Hf)
    as (w1 & Hrun1 & Hs1 & _ & _ & _ & Ho1 & Hh1).
  rewrite run_bind, Hrun1.
  destruct (process_all_ok self bundles _ w1 Hs1) as (w2 & Hrun2 & Hs2 & _).
  { apply has_schema_indexdb_schema. }
  { done. }
  pose proof (preserves_stdout_process_all self bundles w1) as Ho2.
  rewrite Hrun2 in Ho2. simpl in Ho2.
  rewrite run_bind, Hrun2.
  rewrite Hh1 in Hs2. simpl in Hs2.
  destruct (finish_effect self _ w2 Hs2) as (w3 & Hrun3 & Hfi3 & _ & _ & _ & Ho3).
  { apply has_schema_bundles_db, has_schema_indexdb_schema. }
  eexists w3, _. split; [exact Hrun3|]. split; [reflexivity|]. split.
  - rewrite Hfi3. by rewrite lookup_insert_eq.
  - rewrite Ho3, Ho2, Ho1. done.
Qed.

(** X5: without faults, a rebuild over bundles whose records carry their
    payloads publishes at the live path a database whose three tables hold
    exactly the rows of the bundles, in the order of the bundles: one
    product row per bundle with a product, the changelog rows and the
    summary rows of the bundles with a product and a changelog.  Nothing of
    what the live store or the staging file held before remains. *)
Theorem rebuild_publishes_rows_of_bundles live bundles w :
  fates w = [] → forallb bundle_well_formed bundles = true →
  ∃ w' db,
    run (rebuild live bundles) w = Returned () w' ∧
    files w' !! live = Some db ∧
    table_rows "products" db = bundles ≫= bundle_product_rows ∧
    table_rows "changelog" db = bundles ≫= bundle_changelog_rows ∧
    table_rows "changelog_summary" db =
      bundles ≫= bundle_summary_rows (hash_order w).
Proof.
  intros Hf Hwf.
  destruct (rebuild_effect live bundles w Hf Hwf) as (w' & db & Hrun & -> & Hfile & _).
  eexists w', _. split; [exact Hrun|]. split; [exact Hfile|].
  destruct (table_rows_bundles_db (hash_order w) bundles indexdb_schema
              has_schema_indexdb_schema) as (-> & -> & ->).
  done.
Qed.

(** X6: the line a rebuild prints, and the only one, gives the numbers of
    rows it has published: the number of bundles with a product, the number
    of change records indexed and the number of summary rows. *)
Theorem rebuild_prints_published_counts live bundles w :
  fates w = [] → forallb bundle_well_formed bundles = true →
  ∃ w',
    run (rebuild live bundles) w = Returned () w' ∧
    stdout w' = stdout w ++
      [[INTEGER (Z.of_nat (length (bundles ≫= bundle_product_rows)));
        INTEGER (Z.of_nat (length (bundles ≫= bundle_changelog_rows)));
        INTEGER (Z.of_nat
                   (length (bundles ≫= bundle_summary_rows (hash_order w))))]].
Proof.
  intros Hf Hwf.
  destruct (rebuild_effect live bundles w Hf Hwf) as (w' & db & Hrun & -> & _ & Ho).
  exists w'. split; [exact Hrun|]. rewrite Ho. unfold count_line.
  destruct (table_rows_bundles_db (hash_order w) bundles indexdb_schema
              has_schema_indexdb_schema) as (-> & -> & ->).
  done.
Qed.

(** X12: [index_changelog] writes to [changelog] and [changelog_summary]
    only: the rows of [products] are as before. *)
Theorem index_changelog_leaves_products prod cl w :
  accepting w → forallb carries_payload cl = true →
  ∃ w',
    run (index_changelog prod cl) w = Returned () w' ∧
    table_rows "products" (session_db w') = table_rows "products" (session_db w).
Proof.
  intros Hacc Hwf.
  destruct (index_changelog_run prod cl w Hacc Hwf)
    as (w' & ics & Hrun & _ & _ & _ & Hp & _).
  by exists w'.
Qed.


End IndexDb.

(** * The properties on the sample data *)

Ltac sample_session :=
  split; [reflexivity|split; [reflexivity|split; [by eexists|by vm_compute]]].

Ltac sample_accepting :=
  eexists; split; [sample_session|repeat split; by eexists].

(** A rebuild interrupted at its twentieth call, in the middle of
    [process]: the published store is still at the live path. *)
Lemma rebuild_leaves_live_store_witness :
  let o := run (rebuild Sample.normalize_search Sample.compress_systems
                  Sample.json_dumps Sample.posix_timestamp
                  Sample.live Sample.bundles) Sample.interrupted in
  o = Raised CancelledError (final_world o) ∧
  files (final_world o) !! Sample.live = Some Sample.published.
Proof.
  intros o.
  assert (o = Raised CancelledError (final_world o)) as H
    by (vm_compute; reflexivity).
  split; [exact H|].
  destruct (rebuild_leaves_live_store _ _ _ _ _ _ _ _ _ H) as [Hlive _].
  rewrite Hlive. vm_compute. reflexivity.
Defined.

(** The sample changelog and its reverse, in two processes that iterate
    over sets in opposite orders. *)
Lemma index_changelog_summary_rows_witness :
  accepting Sample.prepared ∧ set_order_valid Sample.prepared ∧
  accepting Sample.prepared_reversed ∧ set_order_valid Sample.prepared_reversed ∧
  forallb carries_payload Sample.changes = true ∧
  Sample.changes ≡ₚ reverse Sample.changes ∧
  ∃ w1' w2' srows srows',
    run (index_changelog Sample.json_dumps Sample.posix_timestamp
           Sample.foo_bar Sample.changes) Sample.prepared = Returned () w1' ∧
    run (index_changelog Sample.json_dumps Sample.posix_timestamp
           Sample.foo_bar (reverse Sample.changes)) Sample.prepared_reversed =
      Returned () w2' ∧
    table_rows "changelog_summary" (session_db w1') =
      table_rows "changelog_summary" (session_db Sample.prepared) ++ srows ∧
    table_rows "changelog_summary" (session_db w2') =
      table_rows "changelog_summary" (session_db Sample.prepared_reversed) ++ srows' ∧
    srows ≡ₚ
      (λ ts, [INTEGER (Product.id Sample.foo_bar);
              TEXT (Product.title Sample.foo_bar);
              REAL (Sample.posix_timestamp ts);
              TEXT (join "," (sorted (remove_dups (categories_at ts Sample.changes))))])
      <$> remove_dups (ChangeRecord.timestamp <$> Sample.changes) ∧
    srows' ≡ₚ srows.
Proof.
  assert (accepting Sample.prepared) as H1 by sample_accepting.
  assert (set_order_valid Sample.prepared) as H2 by (intros s; reflexivity).
  assert (accepting Sample.prepared_reversed) as H3 by sample_accepting.
  assert (set_order_valid Sample.prepared_reversed) as H4
    by (intros s; apply reverse_Permutation).
  assert (forallb carries_payload Sample.changes = true) as H5 by reflexivity.
  assert (Sample.changes ≡ₚ reverse Sample.changes) as H6
    by (symmetry; apply reverse_Permutation).
  do 6 (split; [assumption|]).
  exact (index_changelog_summary_rows Sample.json_dumps Sample.posix_timestamp
           Sample.foo_bar Sample.changes (reverse Sample.changes)
           Sample.prepared Sample.prepared_reversed H1 H2 H3 H4 H5 H6).
Defined.

(** A ranked product. *)
Lemma index_product_sale_rank_witness :
  accepting Sample.prepared ∧
  ∃ w' row,
    run (index_product Sample.normalize_search Sample.compress_systems Sample.ranked)
        Sample.prepared = Returned () w' ∧
    table_rows "products" (session_db w') =
      table_rows "products" (session_db Sample.prepared) ++ [row] ∧
    (∀ r, Product.rank_bestselling Sample.ranked = Some r →
          field products_columns "sale_rank" row = Some (INTEGER r)) ∧
    (Product.rank_bestselling Sample.ranked = None →
     field products_columns "sale_rank" row = Some (INTEGER 100000)).
Proof.
  assert (accepting Sample.prepared) as H by sample_accepting.
  split; [exact H|].
  exact (index_product_sale_rank Sample.normalize_search Sample.compress_systems
           Sample.ranked Sample.prepared H).
Defined.

(** The download record of the sample has both descriptors: the old one
    is stored. *)
Lemma download_bonus_type_witness :
  accepting Sample.prepared ∧ forallb carries_payload Sample.changes = true ∧
  ∃ w' rows row,
    run (index_changelog Sample.json_dumps Sample.posix_timestamp
           Sample.foo_bar Sample.changes) Sample.prepared = Returned () w' ∧
    table_rows "changelog" (session_db w') =
      table_rows "changelog" (session_db Sample.prepared) ++ rows ∧
    rows !! 1%nat = Some row ∧
    field changelog_columns "bonus_type" row = Some (TEXT "manuals").
Proof.
  assert (accepting Sample.prepared) as H1 by sample_accepting.
  assert (forallb carries_payload Sample.changes = true) as H2 by reflexivity.
  do 2 (split; [assumption|]).
  destruct (download_bonus_type Sample.json_dumps Sample.posix_timestamp
              Sample.foo_bar Sample.changes Sample.prepared H1 H2)
    as (w' & rows & Hrun & Hrows & Hbonus).
  destruct (Hbonus 1%nat Sample.download_change _ eq_refl eq_refl eq_refl)
    as (row & Hrow & _ & Hold & _).
  exists w', rows, row. repeat split; [exact Hrun|exact Hrows|exact Hrow|].
  exact (Hold _ eq_refl).
Defined.


(** Two rebuilds of the sample bundles, one over a published store and one
    with no file at all, in processes that iterate over sets in opposite
    orders. *)
Lemma rebuild_deterministic_witness :
  fates Sample.idle = [] ∧ set_order_valid Sample.idle ∧
  fates Sample.idle_reversed = [] ∧ set_order_valid Sample.idle_reversed ∧
  forallb bundle_well_formed Sample.bundles = true ∧
  ∃ w1' w2' db,
    run (rebuild Sample.normalize_search Sample.compress_systems
           Sample.json_dumps Sample.posix_timestamp
           Sample.live Sample.bundles) Sample.idle = Returned () w1' ∧
    run (rebuild Sample.normalize_search Sample.compress_systems
           Sample.json_dumps Sample.posix_timestamp
           Sample.live Sample.bundles) Sample.idle_reversed = Returned () w2' ∧
    files w1' !! Sample.live = Some db ∧
    files w2' !! Sample.live = Some db.
Proof.
  assert (set_order_valid Sample.idle) as H2 by (intros s; reflexivity).
  assert (set_order_valid Sample.idle_reversed) as H4
    by (intros s; apply reverse_Permutation).
  split; [reflexivity|]. split; [exact H2|].
  split; [reflexivity|]. split; [exact H4|].
  split; [reflexivity|].
  exact (rebuild_deterministic Sample.normalize_search Sample.compress_systems
           Sample.json_dumps Sample.posix_timestamp Sample.live Sample.bundles
           Sample.idle Sample.idle_reversed eq_refl H2 eq_refl H4 eq_refl).
Defined.

(** [init_db] is not idempotent: on a freshly opened store the first call
    returns and the second one does not. *)
Lemma init_db_second_call_fails :
  ¬ ∃ w1 w2,
      run init_db Sample.opened = Returned () w1 ∧
      run init_db w1 = Returned () w2.
Proof.
  intros (w1 & w2 & H1 & H2).
  destruct (init_db_fresh Sample.opened (Connection Sample.part empty_database false))
    as (w' & Hrun & Hs' & _); [sample_session|reflexivity|].
  rewrite Hrun in H1. injection H1 as <-.
  rewrite (init_db_taken w' _ Hs') in H2; [discriminate|reflexivity].
Qed.

(** A freshly opened store. *)
Lemma init_db_once_witness :
  session Sample.opened (Connection Sample.part empty_database false) ∧
  ∃ w',
    run init_db Sample.opened = Returned () w' ∧
    session_db w' = indexdb_schema ∧
    run init_db w' = Raised (OperationalError "already exists") w'.
Proof.
  assert (session Sample.opened (Connection Sample.part empty_database false)) as H
    by sample_session.
  split; [exact H|].
  exact (init_db_once Sample.opened _ H eq_refl).
Defined.

(** The [build] record of the sample, which carries no payload. *)
Lemma other_category_common_fields_only_witness :
  accepting Sample.prepared ∧ set_order_valid Sample.prepared ∧
  forallb carries_payload Sample.changes = true ∧
  ∃ w' rows srows cats,
    run (index_changelog Sample.json_dumps Sample.posix_timestamp
           Sample.foo_bar Sample.changes) Sample.prepared = Returned () w' ∧
    table_rows "changelog" (session_db w') =
      table_rows "changelog" (session_db Sample.prepared) ++ rows ∧
    table_rows "changelog_summary" (session_db w') =
      table_rows "changelog_summary" (session_db Sample.prepared) ++ srows ∧
    rows !! 2%nat =
      Some [INTEGER 1207658924; TEXT "Foo Bar";
            REAL (Sample.posix_timestamp 1600000360000000);
            TEXT "add"; TEXT "build"; NULL; NULL; NULL; TEXT "add:build"] ∧
    "build" ∈ cats ∧
    [INTEGER 1207658924; TEXT "Foo Bar";
     REAL (Sample.posix_timestamp 1600000360000000);
     TEXT (join "," cats)] ∈ srows.
Proof.
  assert (accepting Sample.prepared) as H1 by sample_accepting.
  assert (set_order_valid Sample.prepared) as H2 by (intros s; reflexivity).
  assert (forallb carries_payload Sample.changes = true) as H3 by reflexivity.
  do 3 (split; [assumption|]).
  destruct (other_category_common_fields_only Sample.json_dumps
              Sample.posix_timestamp Sample.foo_bar Sample.changes
              Sample.prepared H1 H2 H3)
    as (w' & rows & srows & Hrun & Hrows & Hsrows & Hother).
  destruct (Hother 2%nat Sample.build_change eq_refl) as (Hrow & cats & Hcat & Hsrow).
  { discriminate. }
  { discriminate. }
  exists w', rows, srows, cats.
  repeat split; [exact Hrun|exact Hrows|exact Hsrows|exact Hrow|exact Hcat|exact Hsrow].
Defined.

(** The three records of the sample give three rows. *)
Lemma index_changelog_one_row_per_record_witness :
  accepting Sample.prepared ∧ forallb carries_payload Sample.changes = true ∧
  ∃ w' rows,
    run (index_changelog Sample.json_dumps Sample.posix_timestamp
           Sample.foo_bar Sample.changes) Sample.prepared = Returned () w' ∧
    table_rows "changelog" (session_db w') =
      table_rows "changelog" (session_db Sample.prepared) ++ rows ∧
    length rows = 3%nat.
Proof.
  assert (accepting Sample.prepared) as H1 by sample_accepting.
  assert (forallb carries_payload Sample.changes = true) as H2 by reflexivity.
  do 2 (split; [assumption|]).
  destruct (index_changelog_one_row_per_record Sample.json_dumps
              Sample.posix_timestamp Sample.foo_bar Sample.changes
              Sample.prepared H1 H2)
    as (w' & rows & Hrun & Hrows & Hlen & _).
  exists w', rows. repeat split; [exact Hrun|exact Hrows|exact Hlen].
Defined.

(** ** The further properties on the sample data *)

(** The [products] table of a prepared store is empty. *)
Lemma count_rows_counts_witness :
  session Sample.prepared (Connection Sample.part indexdb_schema true) ∧
  has_schema indexdb_schema ∧
  "products" ∈ ["products"; "changelog"; "changelog_summary"] ∧
  ∃ w', run (count_rows "products") Sample.prepared = Returned (INTEGER 0) w' ∧
        session_db w' = session_db Sample.prepared.
Proof.
  assert (session Sample.prepared (Connection Sample.part indexdb_schema true)) as H1
    by sample_session.
  assert (has_schema indexdb_schema) as H2 by (repeat split; by eexists).
  assert ("products" ∈ ["products"; "changelog"; "changelog_summary"]) as H3
    by (by left).
  do 3 (split; [assumption|]).
  destruct (count_rows_counts "products" _ Sample.prepared H1 H2 H3)
    as (w' & Hrun & Hdb & _).
  by exists w'.
Defined.

(** [prepare] over a published store and a stale staging file. *)
Lemma prepare_starts_afresh_witness :
  fates Sample.installed = [] ∧
  parent Sample.live ∈ dirs Sample.installed ∧
  ∃ w',
    run (prepare (mkIndexDbProcessor Sample.live Sample.part)) Sample.installed =
      Returned () w' ∧
    session_db w' = indexdb_schema ∧
    files w' !! Sample.live = Some Sample.published.
Proof.
  assert (parent Sample.live ∈ dirs Sample.installed) as H by (by vm_compute).
  split; [reflexivity|]. split; [exact H|].
  destruct (prepare_starts_afresh (mkIndexDbProcessor Sample.live Sample.part)
              Sample.installed eq_refl H)
    as (w' & Hrun & _ & _ & Hdb & _ & _ & Hq & _).
  exists w'. split; [exact Hrun|]. split; [exact Hdb|].
  rewrite (Hq Sample.live) by discriminate. by vm_compute.
Defined.

(** [finish] on a prepared store. *)
Lemma finish_publishes_witness :
  session Sample.prepared (Connection Sample.part indexdb_schema true) ∧
  has_schema indexdb_schema ∧ Sample.part ≠ Sample.live ∧
  ∃ w',
    run (finish (mkIndexDbProcessor Sample.live Sample.part)) Sample.prepared =
      Returned () w' ∧
    files w' !! Sample.live = Some indexdb_schema ∧
    files w' !! Sample.part = None.
Proof.
  assert (session Sample.prepared (Connection Sample.part indexdb_schema true)) as H1
    by sample_session.
  assert (has_schema indexdb_schema) as H2 by (repeat split; by eexists).
  assert (Sample.part ≠ Sample.live) as H3 by discriminate.
  do 3 (split; [assumption|]).
  destruct (finish_publishes (mkIndexDbProcessor Sample.live Sample.part)
              indexdb_schema Sample.prepared H1 H2 H3)
    as (w' & Hrun & Hlive & Hpart & _).
  by exists w'.
Defined.

(** [process] right after [__init__]. *)
Lemma unprepared_processor_raises_witness :
  self_cur Sample.idle = None ∧
  run (process Sample.normalize_search Sample.compress_systems
         Sample.json_dumps Sample.posix_timestamp
         (mkIndexDbProcessor Sample.live Sample.part)
         (mkBundle (Some Sample.foo_bar) (Some Sample.changes))) Sample.idle =
    Raised AttributeError Sample.idle.
Proof.
  split; [reflexivity|].
  exact (proj1 (unprepared_processor_raises Sample.normalize_search
                  Sample.compress_systems Sample.json_dumps Sample.posix_timestamp
                  (mkIndexDbProcessor Sample.live Sample.part)
                  (mkBundle (Some Sample.foo_bar) (Some Sample.changes))
                  Sample.foo_bar Sample.idle eq_refl eq_refl)).
Defined.

(** The sample bundles: two products, three change records. *)
Lemma rebuild_publishes_rows_of_bundles_witness :
  fates Sample.idle = [] ∧ forallb bundle_well_formed Sample.bundles = true ∧
  ∃ w' db,
    run (rebuild Sample.normalize_search Sample.compress_systems
           Sample.json_dumps Sample.posix_timestamp
           Sample.live Sample.bundles) Sample.idle = Returned () w' ∧
    files w' !! Sample.live = Some db ∧
    length (table_rows "products" db) = 2%nat ∧
    length (table_rows "changelog" db) = 3%nat.
Proof.
  do 2 (split; [reflexivity|]).
  destruct (rebuild_publishes_rows_of_bundles Sample.normalize_search
              Sample.compress_systems Sample.json_dumps Sample.posix_timestamp
              Sample.live Sample.bundles Sample.idle eq_refl eq_refl)
    as (w' & db & Hrun & Hfile & Hp & Hc & _).
  exists w', db. split; [exact Hrun|]. split; [exact Hfile|].
  rewrite Hp, Hc. split; reflexivity.
Defined.

(** The line printed for the sample bundles. *)
Lemma rebuild_prints_published_counts_witness :
  fates Sample.idle = [] ∧ forallb bundle_well_formed Sample.bundles = true ∧
  ∃ w',
    run (rebuild Sample.normalize_search Sample.compress_systems
           Sample.json_dumps Sample.posix_timestamp
           Sample.live Sample.bundles) Sample.idle = Returned () w' ∧
    stdout w' = [[INTEGER 2; INTEGER 3; INTEGER 2]].
Proof.
  do 2 (split; [reflexivity|]).
  destruct (rebuild_prints_published_counts Sample.normalize_search
              Sample.compress_systems Sample.json_dumps Sample.posix_timestamp
              Sample.live Sample.bundles Sample.idle eq_refl eq_refl)
    as (w' & Hrun & Hout).
  exists w'. split; [exact Hrun|]. rewrite Hout. by vm_compute.
Defined.

(** A download record without its payload, after one good record. *)
Lemma index_changelog_stops_at_missing_payload_witness :
  accepting Sample.prepared ∧
  forallb carries_payload [Sample.property_change] = true ∧
  carries_payload (ChangeRecord.mk 1600000360000000 "add" "download" None None)
    = false ∧
  ∃ w' rows,
    run (index_changelog Sample.json_dumps Sample.posix_timestamp Sample.foo_bar
           ([Sample.property_change] ++
            ChangeRecord.mk 1600000360000000 "add" "download" None None ::
            [Sample.build_change])) Sample.prepared =
      Raised AttributeError w' ∧
    table_rows "changelog" (session_db w') =
      table_rows "changelog" (session_db Sample.prepared) ++ rows ∧
    length rows = 1%nat.
Proof.
  assert (accepting Sample.prepared) as H1 by sample_accepting.
  split; [exact H1|]. do 2 (split; [reflexivity|]).
  destruct (index_changelog_stops_at_missing_payload Sample.json_dumps
              Sample.posix_timestamp Sample.foo_bar [Sample.property_change]
              (ChangeRecord.mk 1600000360000000 "add" "download" None None)
              [Sample.build_change] Sample.prepared H1 eq_refl eq_refl)
    as (w' & rows & Hrun & Hrows & Hlen & _).
  by exists w', rows.
Defined.

(** The sample changelog has two distinct timestamps. *)
Lemma summary_rows_in_order_of_first_occurrence_witness :
  accepting Sample.prepared ∧ forallb carries_payload Sample.changes = true ∧
  ∃ w' srows,
    run (index_changelog Sample.json_dumps Sample.posix_timestamp
           Sample.foo_bar Sample.changes) Sample.prepared = Returned () w' ∧
    field changelog_summary_columns "timestamp" <$> srows =
      [Some (REAL (Sample.posix_timestamp 1600000000000000));
       Some (REAL (Sample.posix_timestamp 1600000360000000))].
Proof.
  assert (accepting Sample.prepared) as H1 by sample_accepting.
  split; [exact H1|]. split; [reflexivity|].
  destruct (summary_rows_in_order_of_first_occurrence Sample.json_dumps
              Sample.posix_timestamp Sample.foo_bar Sample.changes
              Sample.prepared H1 eq_refl)
    as (w' & srows & Hrun & _ & Hts & _).
  exists w', srows. split; [exact Hrun|]. rewrite Hts. reflexivity.
Defined.

(** [process], interrupted or not, on a prepared store. *)
Lemma process_writes_no_file_witness :
  in_open_transaction Sample.prepared ∧
  files (final_world
           (run (process Sample.normalize_search Sample.compress_systems
                   Sample.json_dumps Sample.posix_timestamp
                   (mkIndexDbProcessor Sample.live Sample.part)
                   (mkBundle (Some Sample.foo_bar) (Some Sample.changes)))
                Sample.prepared)) = files Sample.prepared.
Proof.
  assert (in_open_transaction Sample.prepared) as H.
  { intros c Hc. injection Hc as <-. reflexivity. }
  split; [exact H|].
  exact (proj1 (process_writes_no_file Sample.normalize_search
                  Sample.compress_systems Sample.json_dumps Sample.posix_timestamp
                  (mkIndexDbProcessor Sample.live Sample.part)
                  (mkBundle (Some Sample.foo_bar) (Some Sample.changes))
                  Sample.prepared H)).
Defined.

(** [finish] twice. *)
Lemma finished_processor_is_spent_witness :
  session Sample.prepared (Connection Sample.part indexdb_schema true) ∧
  has_schema indexdb_schema ∧
  ∃ w',
    run (finish (mkIndexDbProcessor Sample.live Sample.part)) Sample.prepared =
      Returned () w' ∧
    run (finish (mkIndexDbProcessor Sample.live Sample.part)) w' =
      Raised (ValueError "Connection closed") w'.
Proof.
  assert (session Sample.prepared (Connection Sample.part indexdb_schema true)) as H1
    by sample_session.
  assert (has_schema indexdb_schema) as H2 by (repeat split; by eexists).
  do 2 (split; [assumption|]).
  destruct (finished_processor_is_spent Sample.normalize_search
              Sample.compress_systems Sample.json_dumps Sample.posix_timestamp
              (mkIndexDbProcessor Sample.live Sample.part)
              indexdb_schema Sample.prepared H1 H2)
    as (w' & Hrun & Hagain & _).
  by exists w'.
Defined.

(** The property record of the sample. *)
Lemma payload_columns_witness :
  accepting Sample.prepared ∧ forallb carries_payload Sample.changes = true ∧
  ∃ w' (rows : list (list sqlval)) row,
    run (index_changelog Sample.json_dumps Sample.posix_timestamp
           Sample.foo_bar Sample.changes) Sample.prepared = Returned () w' ∧
    rows !! 0%nat = Some row ∧
    field changelog_columns "property_name" row = Some (TEXT "title") ∧
    field changelog_columns "dl_type" row = Some NULL.
Proof.
  assert (accepting Sample.prepared) as H1 by sample_accepting.
  split; [exact H1|]. split; [reflexivity|].
  destruct (payload_columns Sample.json_dumps Sample.posix_timestamp
              Sample.foo_bar Sample.changes Sample.prepared H1 eq_refl)
    as (w' & rows & Hrun & _ & Hcols).
  destruct (Hcols 0%nat Sample.property_change eq_refl) as (row & Hrow & Hprop & _).
  destruct (Hprop (PropertyRecord.mk "title") eq_refl eq_refl) as (Hn & Hd & _).
  by exists w', rows, row.
Defined.

(** The sample changelog on a prepared store. *)
Lemma index_changelog_leaves_products_witness :
  accepting Sample.prepared ∧ forallb carries_payload Sample.changes = true ∧
  ∃ w',
    run (index_changelog Sample.json_dumps Sample.posix_timestamp
           Sample.foo_bar Sample.changes) Sample.prepared = Returned () w' ∧
    table_rows "products" (session_db w') =
      table_rows "products" (session_db Sample.prepared).
Proof.
  assert (accepting Sample.prepared) as H1 by sample_accepting.
  split; [exact H1|]. split; [reflexivity|].
  exact (index_changelog_leaves_products Sample.json_dumps Sample.posix_timestamp
           Sample.foo_bar Sample.changes Sample.prepared H1 eq_refl).
Defined.
